(** * HealTone backend: checkout initiator and webhook reconciler

    A shallow embedding of the two Express servers of the repository,
    [src/server.js] (module [ServerJs]) and the second, reduced server kept
    in [src/unnamed/part_000] (module [Part000]), together with the
    properties of the payment-event relay that the specification states.

    The handlers are [async] functions that await one external call after
    the other, so they are written in a small state-and-exception monad:
    the state holds the datastore, the journal of datastore calls (what a
    datastore mock would record), the journal of calls to the payment
    processor, the console and the number of clock readings taken so far.
    The Stripe client, the Supabase client, the environment and the clock
    are injected through a record [World]. *)

From stdpp Require Import gmap strings list fin_maps pretty.
From Stdlib Require Import ZArith Lia Ascii QArith.

Local Open Scope Z_scope.

(** ** JavaScript values

    The values that travel through request bodies, Stripe objects and the
    JSON sent to the datastore. [JObject repr] stands for any non-primitive
    (object, array, function); [repr] is the string [ToString] gives for
    it. Numbers are the integer-valued ones. *)

Inductive jsval :=
| JUndefined
| JNull
| JBool (b : bool)
| JNum (z : Z)
| JStr (s : string)
| JObject (repr : string).

#[global] Instance jsval_eq_dec : EqDecision jsval.
Proof. solve_decision. Defined.

(** [ToBoolean]. *)
Definition truthy (v : jsval) : bool :=
  match v with
  | JUndefined | JNull => false
  | JBool b => b
  | JNum z => negb (z =? 0)
  | JStr s => negb (String.eqb s "")
  | JObject _ => true
  end.

(** [a || b] and [a && b]. *)
Definition js_or (a b : jsval) : jsval := if truthy a then a else b.
Definition js_and (a b : jsval) : jsval := if truthy a then b else a.

(** [v === 'lit'] for a string literal. *)
Definition is_str (v : jsval) (lit : string) : bool :=
  match v with
  | JStr s => String.eqb s lit
  | _ => false
  end.

(** [ToString], as a template literal applies it. *)
Definition text (v : jsval) : string :=
  match v with
  | JUndefined => "undefined"
  | JNull => "null"
  | JBool true => "true"
  | JBool false => "false"
  | JNum z => pretty z
  | JStr s => s
  | JObject repr => repr
  end.

(** A variable of [process.env]: a string, or absent. *)
Definition env_val (o : option string) : jsval :=
  match o with
  | Some s => JStr s
  | None => JUndefined
  end.

(** ** The [Date] built-in (ECMAScript time values, host time zone UTC)

    A time value is the number of milliseconds since the epoch. The
    definitions follow the abstract operations of the language
    specification: [Day], [TimeWithinDay], [DayFromYear], [YearFromTime],
    [MonthFromTime], [DateFromTime], [MakeDay], [MakeDate]. *)

Module JsDate.

Definition msPerDay : Z := 86400000.
Definition msPerHour : Z := 3600000.
Definition msPerMinute : Z := 60000.
Definition msPerSecond : Z := 1000.

Definition Day (t : Z) : Z := t / msPerDay.
Definition TimeWithinDay (t : Z) : Z := t mod msPerDay.

Definition DaysInYear (y : Z) : Z :=
  if negb (y mod 4 =? 0) then 365
  else if negb (y mod 100 =? 0) then 366
  else if negb (y mod 400 =? 0) then 365
  else 366.

Definition DayFromYear (y : Z) : Z :=
  365 * (y - 1970) + (y - 1969) / 4 - (y - 1901) / 100 + (y - 1601) / 400.

(** The largest [y] with [DayFromYear y <= d]: an estimate from the mean
    length of a year, corrected by at most one year either way. *)
Definition YearFromDay (d : Z) : Z :=
  let y := 1970 + d * 400 / 146097 in
  if d <? DayFromYear y then y - 1
  else if DayFromYear (y + 1) <=? d then y + 1
  else y.

Definition YearFromTime (t : Z) : Z := YearFromDay (Day t).

Definition InLeapYear (t : Z) : Z :=
  if DaysInYear (YearFromTime t) =? 366 then 1 else 0.

Definition DayWithinYear (t : Z) : Z := Day t - DayFromYear (YearFromTime t).

(** Day number, within its year, of the first day of month [m] (0-11). *)
Definition MonthStart (leap m : Z) : Z :=
  if m =? 0 then 0
  else if m =? 1 then 31
  else if m =? 2 then 59 + leap
  else if m =? 3 then 90 + leap
  else if m =? 4 then 120 + leap
  else if m =? 5 then 151 + leap
  else if m =? 6 then 181 + leap
  else if m =? 7 then 212 + leap
  else if m =? 8 then 243 + leap
  else if m =? 9 then 273 + leap
  else if m =? 10 then 304 + leap
  else 334 + leap.

Definition MonthFromTime (t : Z) : Z :=
  let d := DayWithinYear t in
  let l := InLeapYear t in
  if d <? 31 then 0
  else if d <? 59 + l then 1
  else if d <? 90 + l then 2
  else if d <? 120 + l then 3
  else if d <? 151 + l then 4
  else if d <? 181 + l then 5
  else if d <? 212 + l then 6
  else if d <? 243 + l then 7
  else if d <? 273 + l then 8
  else if d <? 304 + l then 9
  else if d <? 334 + l then 10
  else 11.

Definition DateFromTime (t : Z) : Z :=
  DayWithinYear t - MonthStart (InLeapYear t) (MonthFromTime t) + 1.

Definition HourFromTime (t : Z) : Z := (t / msPerHour) mod 24.
Definition MinFromTime (t : Z) : Z := (t / msPerMinute) mod 60.
Definition SecFromTime (t : Z) : Z := (t / msPerSecond) mod 60.
Definition msFromTime (t : Z) : Z := t mod msPerSecond.

(** [MakeDay(year, month, date)]: the day number of the first day of the
    month, plus [date - 1]; months outside 0-11 carry into the year. *)
Definition MakeDay (year month date : Z) : Z :=
  let ym := year + month / 12 in
  let mn := month mod 12 in
  let leap := if DaysInYear ym =? 366 then 1 else 0 in
  DayFromYear ym + MonthStart leap mn + date - 1.

Definition MakeDate (day time : Z) : Z := day * msPerDay + time.

(** [d.getDate()] and [d.setDate(date)] on a date object holding [t]. *)
Definition getDate (t : Z) : Z := DateFromTime t.
Definition setDate (t date : Z) : Z :=
  MakeDate (MakeDay (YearFromTime t) (MonthFromTime t) date) (TimeWithinDay t).

(** Decimal digits of [n], left-padded with zeros to [width]. *)
Fixpoint zeros (n : nat) : string :=
  match n with
  | O => ""
  | S n => "0" +:+ zeros n
  end.

Definition pad (width : nat) (n : Z) : string :=
  let s := pretty (Z.to_N n) in
  zeros (width - String.length s) +:+ s.

(** [d.toISOString()]: YYYY-MM-DDTHH:mm:ss.sssZ, with a sign and six digits
    for years outside 0-9999. *)
Definition toISOString (t : Z) : string :=
  let y := YearFromTime t in
  let year :=
    if (0 <=? y) && (y <=? 9999) then pad 4 y
    else if y <? 0 then "-" +:+ pad 6 (- y)
    else "+" +:+ pad 6 y in
  year +:+ "-" +:+ pad 2 (MonthFromTime t + 1) +:+ "-" +:+ pad 2 (DateFromTime t)
    +:+ "T" +:+ pad 2 (HourFromTime t) +:+ ":" +:+ pad 2 (MinFromTime t)
    +:+ ":" +:+ pad 2 (SecFromTime t) +:+ "." +:+ pad 3 (msFromTime t) +:+ "Z".

End JsDate.

(** [s.toUpperCase()] on the ASCII letters (currency codes are ASCII). *)
Definition upper_ascii (c : ascii) : ascii :=
  let n := nat_of_ascii c in
  if ((97 <=? n) && (n <=? 122))%nat then ascii_of_nat (n - 32) else c.

Fixpoint toUpperCase (s : string) : string :=
  match s with
  | EmptyString => EmptyString
  | String c s => String (upper_ascii c) (toUpperCase s)
  end.

(** ** Stripe objects and events *)

(** [session.metadata]: the two keys the servers read. *)
Record metadata := {
  md_userId : jsval;
  md_plan : jsval
}.

(** [event.data.object]: a checkout session, a subscription or an invoice,
    with the fields the handlers read; a field the object does not carry
    is [JUndefined]. [o_metadata = None] is a null or undefined
    [metadata]; [o_amount_total] is Stripe's nullable integer amount in
    minor units. *)
Record stripe_object := {
  o_id : jsval;
  o_mode : jsval;
  o_status : jsval;
  o_metadata : option metadata;
  o_subscription : jsval;
  o_customer : jsval;
  o_payment_intent : jsval;
  o_amount_total : option Z;
  o_currency : jsval;
  o_client_reference_id : jsval
}.

Record event := {
  ev_id : string;
  ev_type : string;
  ev_object : stripe_object
}.

(** The argument of [stripe.checkout.sessions.create]. [cfg_metadata_userId]
    is [None] when the metadata object has no [userId] key;
    [cfg_subscription_data] is [Some n] when
    [subscription_data: { trial_period_days: n }] is attached. *)
Record sessionConfig := {
  cfg_customer_email : jsval;
  cfg_client_reference_id : jsval;
  cfg_price : jsval;
  cfg_quantity : Z;
  cfg_mode : string;
  cfg_success_url : string;
  cfg_cancel_url : string;
  cfg_metadata_userId : option jsval;
  cfg_metadata_plan : jsval;
  cfg_subscription_data : option Z
}.

(** ** The datastore

    Two tables. A row of [profiles] maps column names to values; SQL NULL
    is [JNull]. A row of [payment_history] is what the reconciler inserts. *)

Record payment_event := {
  user_id : jsval;
  stripe_payment_id : jsval;
  amount : Q;
  currency : string;
  payment_type : string;
  pe_status : string
}.

Record db := {
  profiles : list (gmap string jsval);
  payment_history : list payment_event
}.

(** The two calls the servers issue:
    [from('profiles').update(patch).eq(col, v)] and
    [from('payment_history').insert(row)]. The patch is the JSON body, in
    which keys holding [undefined] do not appear. *)
Inductive call :=
| UpdateProfiles (patch : gmap string jsval) (col : string) (v : jsval)
| InsertPayment (row : payment_event).

(** [JSON.stringify] of an object: keys whose value is [undefined] are
    left out. *)
Definition json (o : gmap string jsval) : gmap string jsval :=
  filter (λ kv, kv.2 ≠ JUndefined) o.

(** The filter [col = eq.v]: the cell is not NULL and reads as the text the
    client put in the query string. *)
Definition eq_match (r : gmap string jsval) (col : string) (v : jsval) : bool :=
  match r !! col with
  | None | Some JNull | Some JUndefined => false
  | Some c => String.eqb (text c) (text v)
  end.

Definition apply_patch (patch : gmap string jsval) (col : string) (v : jsval)
    (r : gmap string jsval) : gmap string jsval :=
  if eq_match r col v then patch ∪ r else r.

(** A datastore that carries out every call. *)
Definition pg_exec (c : call) (d : db) : db :=
  match c with
  | UpdateProfiles patch col v =>
      {| profiles := apply_patch patch col v <$> profiles d;
         payment_history := payment_history d |}
  | InsertPayment row =>
      {| profiles := profiles d;
         payment_history := payment_history d ++ [row] |}
  end.

(** ** Effects *)

Record exn := { message : string }.

Inductive result (A : Type) :=
| Ok (a : A)
| Throw (e : exn).
Arguments Ok {A} a.
Arguments Throw {A} e.

(** The injected dependencies: [process.env], the Stripe client, the
    Supabase client and the system clock ([clock n] is the time value of
    the [n]-th [new Date()] of the process). *)
Record World := {
  STRIPE_WEEKLY_PRICE_ID : option string;
  STRIPE_LIFETIME_PRICE_ID : option string;
  STRIPE_WEBHOOK_SECRET : option string;
  CLIENT_URL : option string;
  constructEvent : string → jsval → option string → result event;
  sessions_create : sessionConfig → result jsval;
  supabase : call → db → result db;
  clock : nat → Z
}.

Record state := {
  st_db : db;
  st_db_calls : list (call * option exn);
  st_stripe_calls : list sessionConfig;
  st_console : list string;
  st_ticks : nat
}.

Definition M (A : Type) : Type := state → result A * state.

#[global] Instance M_ret : MRet M := λ A a st, (Ok a, st).
#[global] Instance M_bind : MBind M := λ A B f m st,
  match m st with
  | (Ok a, st') => f a st'
  | (Throw e, st') => (Throw e, st')
  end.

Definition throw {A} (e : exn) : M A := λ st, (Throw e, st).

(** [try { m } catch (e) { h e }]. *)
Definition try_catch {A} (m : M A) (h : exn → M A) : M A := λ st,
  match m st with
  | (Ok a, st') => (Ok a, st')
  | (Throw e, st') => h e st'
  end.

Definition TypeError (msg : string) : exn := {| message := msg |}.

Section Effects.
Context (W : World).

(** [new Date()]: the next reading of the clock. *)
Definition new_Date : M Z := λ st,
  (Ok (clock W (st_ticks st)),
   {| st_db := st_db st; st_db_calls := st_db_calls st;
      st_stripe_calls := st_stripe_calls st; st_console := st_console st;
      st_ticks := S (st_ticks st) |}).

(** An awaited datastore call: journalled, then carried out or thrown. *)
Definition db_call (c : call) : M () := λ st,
  match supabase W c (st_db st) with
  | Ok d =>
      (Ok (),
       {| st_db := d; st_db_calls := st_db_calls st ++ [(c, None)];
          st_stripe_calls := st_stripe_calls st; st_console := st_console st;
          st_ticks := st_ticks st |})
  | Throw e =>
      (Throw e,
       {| st_db := st_db st; st_db_calls := st_db_calls st ++ [(c, Some e)];
          st_stripe_calls := st_stripe_calls st; st_console := st_console st;
          st_ticks := st_ticks st |})
  end.

(** [await stripe.checkout.sessions.create(cfg)], giving [session.url]. *)
Definition stripe_create (cfg : sessionConfig) : M jsval := λ st,
  (sessions_create W cfg,
   {| st_db := st_db st; st_db_calls := st_db_calls st;
      st_stripe_calls := st_stripe_calls st ++ [cfg];
      st_console := st_console st; st_ticks := st_ticks st |}).

(** [console.log] and [console.error]. *)
Definition console (line : string) : M () := λ st,
  (Ok (),
   {| st_db := st_db st; st_db_calls := st_db_calls st;
      st_stripe_calls := st_stripe_calls st;
      st_console := st_console st ++ [line]; st_ticks := st_ticks st |}).
End Effects.

(** ** HTTP *)

Inductive body :=
| BJson (fields : list (string * jsval))
| BText (s : string).

Record response := {
  status : Z;
  res_body : body
}.

(** [res.json(o)] on a fresh response, and [res.status(n)] before it. *)
Definition res_json (n : Z) (fields : list (string * jsval)) : response :=
  {| status := n; res_body := BJson fields |}.
Definition res_send (n : Z) (s : string) : response :=
  {| status := n; res_body := BText s |}.

(** [req.body] of [/create-checkout-session], as [express.json()] left it. *)
Record checkout_body := {
  b_plan : jsval;
  b_userId : jsval;
  b_email : jsval;
  b_skipTrial : jsval
}.

(** A [/webhook] request: the raw body and the [stripe-signature] header. *)
Record webhook_request := {
  raw_body : string;
  stripe_signature : jsval
}.

(** Property lookup [prices[plan]] on the object literal
    [{ weekly: ..., lifetime: ... }]: own properties first, then
    [Object.prototype]. *)
Definition Object_prototype_keys : list string :=
  ["constructor"; "__defineGetter__"; "__defineSetter__"; "hasOwnProperty";
   "__lookupGetter__"; "__lookupSetter__"; "isPrototypeOf";
   "propertyIsEnumerable"; "toString"; "valueOf"; "__proto__";
   "toLocaleString"].

Definition Object_prototype_get (key : string) : jsval :=
  if String.eqb key "__proto__" then JObject "[object Object]"
  else if String.eqb key "constructor"
  then JObject "function Object() { [native code] }"
  else if bool_decide (key ∈ Object_prototype_keys)
  then JObject ("function " +:+ key +:+ "() { [native code] }")
  else JUndefined.

Definition prices_get (W : World) (plan : jsval) : jsval :=
  let key := text plan in
  if String.eqb key "weekly" then env_val (STRIPE_WEEKLY_PRICE_ID W)
  else if String.eqb key "lifetime" then env_val (STRIPE_LIFETIME_PRICE_ID W)
  else Object_prototype_get key.

(** [`${process.env.CLIENT_URL}...`]. *)
Definition client_url (W : World) : string := text (env_val (CLIENT_URL W)).

(** ** [src/server.js] *)

Module ServerJs.
Section Server.
Context (W : World).

(** [app.post('/create-checkout-session', ...)]. *)
Definition create_checkout_session (b : checkout_body) : M response :=
  try_catch
    (let plan := b_plan b in
     let userId := b_userId b in
     let sessionConfig :=
       {| cfg_customer_email := b_email b;
          cfg_client_reference_id := userId;
          cfg_price := prices_get W plan;
          cfg_quantity := 1;
          cfg_mode := if is_str plan "lifetime" then "payment" else "subscription";
          cfg_success_url :=
            client_url W +:+ "/success?session_id={CHECKOUT_SESSION_ID}";
          cfg_cancel_url := client_url W +:+ "/pricing";
          cfg_metadata_userId := Some userId;
          cfg_metadata_plan := plan;
          cfg_subscription_data := None |} in
     (* Add trial if weekly and not skipped *)
     let sessionConfig :=
       if is_str plan "weekly" && negb (truthy (b_skipTrial b))
       then {| cfg_customer_email := cfg_customer_email sessionConfig;
               cfg_client_reference_id := cfg_client_reference_id sessionConfig;
               cfg_price := cfg_price sessionConfig;
               cfg_quantity := cfg_quantity sessionConfig;
               cfg_mode := cfg_mode sessionConfig;
               cfg_success_url := cfg_success_url sessionConfig;
               cfg_cancel_url := cfg_cancel_url sessionConfig;
               cfg_metadata_userId := cfg_metadata_userId sessionConfig;
               cfg_metadata_plan := cfg_metadata_plan sessionConfig;
               cfg_subscription_data := Some 7 |}
       else sessionConfig in
     url ← stripe_create W sessionConfig;
     mret (res_json 200 [("url", url)]))
    (λ error, mret (res_json 400 [("error", JStr (message error))])).

Definition handleCheckoutComplete (session : stripe_object) : M () :=
  md ← match o_metadata session with
       | Some md => mret md
       | None =>
           throw (TypeError "Cannot read properties of undefined (reading 'userId')")
       end;
  let userId := md_userId md in
  let plan := md_plan md in
  started ← new_Date W;
  let updateData : gmap string jsval :=
    <["subscription_start_date" := JStr (JsDate.toISOString started)]>
    (<["stripe_customer_id" := o_customer session]>
    (<["subscription_status" :=
         JStr (if is_str (o_mode session) "subscription"
               then if truthy (o_subscription session) then "trial" else "active"
               else "active")]>
    (<["subscription_tier" := plan]> ∅))) in
  updateData ←
    (if truthy (o_subscription session)
     then
       (* Calculate trial end date *)
       trialEnd ← new_Date W;
       let trialEnd := JsDate.setDate trialEnd (JsDate.getDate trialEnd + 7) in
       mret (<["trial_end_date" := JStr (JsDate.toISOString trialEnd)]>
             (<["stripe_subscription_id" := o_subscription session]> updateData))
     else mret updateData);
  db_call W (UpdateProfiles (json updateData) "id" userId);;
  (* Log payment *)
  currency ← match o_currency session with
             | JStr s => mret (toUpperCase s)
             | JUndefined =>
                 throw (TypeError
                   "Cannot read properties of undefined (reading 'toUpperCase')")
             | JNull =>
                 throw (TypeError
                   "Cannot read properties of null (reading 'toUpperCase')")
             | _ =>
                 throw (TypeError "session.currency.toUpperCase is not a function")
             end;
  db_call W (InsertPayment
    {| user_id := userId;
       stripe_payment_id := js_or (o_payment_intent session) (o_id session);
       amount := Qmake (default 0 (o_amount_total session)) 100;
       currency := currency;
       payment_type := if is_str plan "lifetime" then "one_time" else "subscription";
       pe_status := "succeeded" |}).

Definition handleSubscriptionUpdate (subscription : stripe_object) : M () :=
  let status :=
    if is_str (o_status subscription) "trialing" then "trial"
    else if is_str (o_status subscription) "active" then "active"
    else "past_due" in
  now ← new_Date W;
  db_call W (UpdateProfiles
    (json (<["last_payment_date" := JStr (JsDate.toISOString now)]>
           (<["subscription_status" := JStr status]> ∅)))
    "stripe_subscription_id" (o_id subscription)).

Definition handleSubscriptionDeleted (subscription : stripe_object) : M () :=
  now ← new_Date W;
  db_call W (UpdateProfiles
    (json (<["subscription_end_date" := JStr (JsDate.toISOString now)]>
           (<["subscription_tier" := JStr "free"]>
           (<["subscription_status" := JStr "canceled"]> ∅))))
    "stripe_subscription_id" (o_id subscription)).

Definition handlePaymentSucceeded (invoice : stripe_object) : M () :=
  if negb (truthy (o_subscription invoice)) then mret ()
  else
    now ← new_Date W;
    db_call W (UpdateProfiles
      (json (<["last_payment_date" := JStr (JsDate.toISOString now)]>
             (<["subscription_status" := JStr "active"]> ∅)))
      "stripe_subscription_id" (o_subscription invoice)).

Definition handlePaymentFailed (invoice : stripe_object) : M () :=
  db_call W (UpdateProfiles
    (json (<["subscription_status" := JStr "past_due"]> ∅))
    "stripe_subscription_id" (o_subscription invoice)).

(** The [switch (event.type)] of the webhook handler. *)
Definition dispatch (event : event) : M () :=
  let type := ev_type event in
  if String.eqb type "checkout.session.completed"
  then handleCheckoutComplete (ev_object event)
  else if String.eqb type "customer.subscription.updated"
  then handleSubscriptionUpdate (ev_object event)
  else if String.eqb type "customer.subscription.deleted"
  then handleSubscriptionDeleted (ev_object event)
  else if String.eqb type "invoice.payment_succeeded"
  then handlePaymentSucceeded (ev_object event)
  else if String.eqb type "invoice.payment_failed"
  then handlePaymentFailed (ev_object event)
  else mret ().

(** [app.post('/webhook', express.raw(...), ...)]. The line
    [console.error('Webhook error:', error)] is journalled with the
    error's message; the stack trace Node prints after it is left out. *)
Definition webhook (req : webhook_request) : M response :=
  match constructEvent W (raw_body req) (stripe_signature req)
          (STRIPE_WEBHOOK_SECRET W) with
  | Throw err => mret (res_send 400 ("Webhook Error: " +:+ message err))
  | Ok event =>
      try_catch
        (dispatch event;;
         mret (res_json 200 [("received", JBool true)]))
        (λ error,
           console ("Webhook error: " +:+ message error);;
           mret (res_send 500 "Webhook handler failed"))
  end.
End Server.
End ServerJs.

(** ** [src/unnamed/part_000] *)

Module Part000.
Section Server.
Context (W : World).

(** [app.post('/create-checkout-session', ...)]. *)
Definition create_checkout_session (b : checkout_body) : M response :=
  try_catch
    (let plan := b_plan b in
     let userId := b_userId b in
     let email := b_email b in
     if negb (truthy plan) || negb (truthy userId) || negb (truthy email)
     then mret (res_json 400 [("error", JStr "Missing plan, userId, or email")])
     else
       let priceId := prices_get W plan in
       if negb (truthy priceId)
       then mret (res_json 400 [("error", JStr "Unknown plan")])
       else
         url ← stripe_create W
           {| cfg_customer_email := email;
              cfg_client_reference_id := userId;
              cfg_price := priceId;
              cfg_quantity := 1;
              cfg_mode :=
                if is_str plan "lifetime" then "payment" else "subscription";
              cfg_success_url :=
                client_url W +:+ "/success?session_id={CHECKOUT_SESSION_ID}";
              cfg_cancel_url := client_url W +:+ "/pricing";
              (* 7-day trial for weekly, if desired *)
              cfg_subscription_data :=
                if is_str plan "weekly" then Some 7 else None;
              cfg_metadata_userId := None;
              cfg_metadata_plan := plan |};
         mret (res_json 200 [("url", url)]))
    (λ error,
       console ("Checkout error: " +:+ message error);;
       mret (res_json 500 [("error", JStr (message error))])).

(** [app.post('/webhook', express.raw(...), ...)]. *)
Definition webhook (req : webhook_request) : M response :=
  match constructEvent W (raw_body req) (stripe_signature req)
          (STRIPE_WEBHOOK_SECRET W) with
  | Throw err =>
      console ("Webhook signature failed: " +:+ message err);;
      mret (res_send 400 ("Webhook Error: " +:+ message err))
  | Ok event =>
      (* Handle only checkout completed for now *)
      (if String.eqb (ev_type event) "checkout.session.completed"
       then
         let session := ev_object event in
         let userId := o_client_reference_id session in
         let planFromMeta :=
           match o_metadata session with
           | Some md => md_plan md
           | None => JUndefined
           end in
         let inferredPlan :=
           if truthy (o_subscription session) then JStr "weekly"
           else JStr "lifetime" in
         let plan := js_or planFromMeta inferredPlan in
         if truthy (js_and userId plan)
         then
           try_catch
             (db_call W (UpdateProfiles
                (json (<["stripe_subscription_id" :=
                           js_or (o_subscription session) JNull]>
                       (<["stripe_customer_id" := o_customer session]>
                       (<["subscription_status" := JStr "active"]>
                       (<["subscription_tier" := plan]> ∅)))))
                "id" userId))
             (λ e, console ("Supabase update error in webhook: " +:+ message e))
         else mret ()
       else mret ());;
      mret (res_json 200 [("received", JBool true)])
  end.
End Server.
End Part000.

(** ** Test doubles

    A datastore that carries out every call, one that is down, a processor
    client that answers with a fixed URL, and a signature check that
    accepts the header ["good"] and knows the payloads of a few events. *)

Module Fixtures.

Definition pg (c : call) (d : db) : result db := Ok (pg_exec c d).

Definition down (c : call) (d : db) : result db :=
  Throw {| message := "fetch failed" |}.

Definition no_object : stripe_object :=
  {| o_id := JUndefined; o_mode := JUndefined; o_status := JUndefined;
     o_metadata := None; o_subscription := JUndefined;
     o_customer := JUndefined; o_payment_intent := JUndefined;
     o_amount_total := None; o_currency := JUndefined;
     o_client_reference_id := JUndefined |}.

(** A paid one-time checkout of the lifetime plan by user ["u1"]. *)
Definition lifetime_session : stripe_object :=
  {| o_id := JStr "cs_1"; o_mode := JStr "payment"; o_status := JStr "complete";
     o_metadata := Some {| md_userId := JStr "u1"; md_plan := JStr "lifetime" |};
     o_subscription := JUndefined;
     o_customer := JStr "cus_1"; o_payment_intent := JStr "pi_1";
     o_amount_total := Some 4999; o_currency := JStr "usd";
     o_client_reference_id := JStr "u1" |}.

(** A weekly checkout by user ["u1"], with subscription ["sub_1"]. *)
Definition weekly_session : stripe_object :=
  {| o_id := JStr "cs_2"; o_mode := JStr "subscription";
     o_status := JStr "complete";
     o_metadata := Some {| md_userId := JStr "u1"; md_plan := JStr "weekly" |};
     o_subscription := JStr "sub_1";
     o_customer := JStr "cus_1"; o_payment_intent := JNull;
     o_amount_total := Some 0; o_currency := JStr "usd";
     o_client_reference_id := JStr "u1" |}.

(** The same weekly checkout, from a session that carries no metadata. *)
Definition bare_session : stripe_object :=
  {| o_id := JStr "cs_3"; o_mode := JStr "subscription";
     o_status := JStr "complete";
     o_metadata := None;
     o_subscription := JStr "sub_1";
     o_customer := JStr "cus_1"; o_payment_intent := JNull;
     o_amount_total := Some 0; o_currency := JStr "usd";
     o_client_reference_id := JStr "u1" |}.

(** The subscription ["sub_1"], past due. *)
Definition sub_1 : stripe_object :=
  {| o_id := JStr "sub_1"; o_mode := JUndefined; o_status := JStr "past_due";
     o_metadata := None; o_subscription := JUndefined;
     o_customer := JStr "cus_1"; o_payment_intent := JUndefined;
     o_amount_total := None; o_currency := JStr "usd";
     o_client_reference_id := JUndefined |}.

(** An invoice of the subscription ["sub_1"]. *)
Definition invoice_1 : stripe_object :=
  {| o_id := JStr "in_1"; o_mode := JUndefined; o_status := JStr "open";
     o_metadata := None; o_subscription := JStr "sub_1";
     o_customer := JStr "cus_1"; o_payment_intent := JStr "pi_2";
     o_amount_total := None; o_currency := JStr "usd";
     o_client_reference_id := JUndefined |}.

Definition payloads : list (string * event) :=
  [("lifetime",
    {| ev_id := "evt_1"; ev_type := "checkout.session.completed";
       ev_object := lifetime_session |});
   ("weekly",
    {| ev_id := "evt_2"; ev_type := "checkout.session.completed";
       ev_object := weekly_session |});
   ("bare",
    {| ev_id := "evt_3"; ev_type := "checkout.session.completed";
       ev_object := bare_session |});
   ("updated",
    {| ev_id := "evt_4"; ev_type := "customer.subscription.updated";
       ev_object := sub_1 |});
   ("deleted",
    {| ev_id := "evt_5"; ev_type := "customer.subscription.deleted";
       ev_object := sub_1 |});
   ("paid",
    {| ev_id := "evt_6"; ev_type := "invoice.payment_succeeded";
       ev_object := invoice_1 |});
   ("failed",
    {| ev_id := "evt_7"; ev_type := "invoice.payment_failed";
       ev_object := invoice_1 |})].

Fixpoint assoc {A} (k : string) (l : list (string * A)) : option A :=
  match l with
  | [] => None
  | (k', a) :: l => if String.eqb k k' then Some a else assoc k l
  end.

Definition check_signature (payload : string) (sig : jsval)
    (secret : option string) : result event :=
  if is_str sig "good" then
    match assoc payload payloads with
    | Some ev => Ok ev
    | None => Throw {| message := "Unexpected end of JSON input" |}
    end
  else
    Throw {| message :=
      "No signatures found matching the expected signature for payload" |}.

(** The processor: a session for a known price, an error otherwise. *)
Definition create_session (cfg : sessionConfig) : result jsval :=
  if is_str (cfg_price cfg) "price_weekly" || is_str (cfg_price cfg) "price_lifetime"
  then Ok (JStr "https://checkout.example/pay")
  else Throw {| message := "No such price" |}.

(** One second between two readings of the clock, from 2023-11-14. *)
Definition ticking (n : nat) : Z := 1700000000000 + 1000 * Z.of_nat n.

Definition world (ds : call → db → result db) : World :=
  {| STRIPE_WEEKLY_PRICE_ID := Some "price_weekly";
     STRIPE_LIFETIME_PRICE_ID := Some "price_lifetime";
     STRIPE_WEBHOOK_SECRET := Some "whsec";
     CLIENT_URL := Some "https://app.example";
     constructEvent := check_signature;
     sessions_create := create_session;
     supabase := ds;
     clock := ticking |}.

Definition row (id tier st sub : jsval) : gmap string jsval :=
  <["stripe_subscription_id" := sub]>
  (<["subscription_status" := st]>
  (<["subscription_tier" := tier]>
  (<["id" := id]> ∅))).

(** Two users: ["u1"] on the free tier, ["u2"] a weekly subscriber. *)
Definition two_users : db :=
  {| profiles :=
       [row (JStr "u1") (JStr "free") (JStr "none") JNull;
        row (JStr "u2") (JStr "weekly") (JStr "active") (JStr "sub_2")];
     payment_history := [] |}.

(** User ["u1"] on a weekly trial with subscription ["sub_1"], ["u2"] as
    before. *)
Definition subscribed : db :=
  {| profiles :=
       [row (JStr "u1") (JStr "weekly") (JStr "trial") (JStr "sub_1");
        row (JStr "u2") (JStr "weekly") (JStr "active") (JStr "sub_2")];
     payment_history := [] |}.

Definition boot (d : db) : state :=
  {| st_db := d; st_db_calls := []; st_stripe_calls := [];
     st_console := []; st_ticks := 0 |}.

Definition signed (payload : string) : webhook_request :=
  {| raw_body := payload; stripe_signature := JStr "good" |}.

End Fixtures.


(** ** Billing-portal sessions

    [app.post('/create-portal-session', ...)] of both servers. The
    billing-portal client is a dependency of its own, [create]; the calls
    made to it are journalled beside the state of the other handlers. *)

Module Portal.

(** The argument of [stripe.billingPortal.sessions.create]. *)
Record portal_params := {
  pp_customer : jsval;
  pp_return_url : string
}.

(** [req.body] of [/create-portal-session]. *)
Record portal_body := {
  b_customerId : jsval
}.

Record pstate := {
  p_state : state;
  p_portal_calls : list portal_params
}.

Definition PM (A : Type) : Type := pstate → result A * pstate.

#[global] Instance PM_ret : MRet PM := λ A a ps, (Ok a, ps).
#[global] Instance PM_bind : MBind PM := λ A B f m ps,
  match m ps with
  | (Ok a, ps') => f a ps'
  | (Throw e, ps') => (Throw e, ps')
  end.

(** [try { m } catch (e) { h e }]. *)
Definition p_try_catch {A} (m : PM A) (h : exn → PM A) : PM A := λ ps,
  match m ps with
  | (Ok a, ps') => (Ok a, ps')
  | (Throw e, ps') => h e ps'
  end.

(** An effect of the other handlers, here [console.error]. *)
Definition lift {A} (m : M A) : PM A := λ ps,
  match m (p_state ps) with
  | (r, st') => (r, {| p_state := st'; p_portal_calls := p_portal_calls ps |})
  end.

(** [await stripe.billingPortal.sessions.create(p)], giving the session's
    [url]. *)
Definition billingPortal_create (create : portal_params → result jsval)
    (p : portal_params) : PM jsval := λ ps,
  (create p,
   {| p_state := p_state ps; p_portal_calls := p_portal_calls ps ++ [p] |}).

(** [src/server.js]. *)
Definition ServerJs_create_portal_session (W : World)
    (create : portal_params → result jsval) (b : portal_body) : PM response :=
  p_try_catch
    (let customerId := b_customerId b in
     url ← billingPortal_create create
       {| pp_customer := customerId;
          pp_return_url := client_url W +:+ "/account" |};
     mret (res_json 200 [("url", url)]))
    (λ error, mret (res_json 400 [("error", JStr (message error))])).

(** [src/unnamed/part_000]. *)
Definition Part000_create_portal_session (W : World)
    (create : portal_params → result jsval) (b : portal_body) : PM response :=
  p_try_catch
    (let customerId := b_customerId b in
     if negb (truthy customerId)
     then mret (res_json 400 [("error", JStr "Missing customerId")])
     else
       url ← billingPortal_create create
         {| pp_customer := customerId;
            pp_return_url := client_url W +:+ "/profile.html" |};
       mret (res_json 200 [("url", url)]))
    (λ error,
       lift (console ("Portal error: " +:+ message error));;
       mret (res_json 500 [("error", JStr (message error))])).

End Portal.

(** ** More test doubles *)

(** A world whose signature check accepts every request as the event
    [ev]. *)
Definition world_of (ev : event) (ds : call → db → result db) : World :=
  {| STRIPE_WEEKLY_PRICE_ID := Some "price_weekly";
     STRIPE_LIFETIME_PRICE_ID := Some "price_lifetime";
     STRIPE_WEBHOOK_SECRET := Some "whsec";
     CLIENT_URL := Some "https://app.example";
     constructEvent := λ _ _ _, Ok ev;
     sessions_create := Fixtures.create_session;
     supabase := ds;
     clock := Fixtures.ticking |}.

Definition customer_created : event :=
  {| ev_id := "evt_9"; ev_type := "customer.created";
     ev_object := Fixtures.no_object |}.

(** * Properties *)

(** ** Running the monad *)

Ltac run :=
  unfold mbind, mret, M_bind, M_ret, try_catch, throw, db_call, new_Date,
    stripe_create, console in *; simpl in *.

Definition client_error (r : response) : Prop := 400 ≤ status r < 500.
Definition server_error (r : response) : Prop := 500 ≤ status r < 600.

(** ** Signature failures *)

(** C1. When [constructEvent] throws (bad signature or malformed payload),
    both servers answer 400, a client error, and neither touches the
    datastore: its contents and the journal of datastore calls are as
    before. *)
Theorem webhook_bad_signature_no_write (W : World) (req : webhook_request)
    (st : state) (err : exn) :
  constructEvent W (raw_body req) (stripe_signature req)
    (STRIPE_WEBHOOK_SECRET W) = Throw err →
  (∃ res st', ServerJs.webhook W req st = (Ok res, st') ∧
     status res = 400 ∧ client_error res ∧
     st_db st' = st_db st ∧ st_db_calls st' = st_db_calls st) ∧
  (∃ res st', Part000.webhook W req st = (Ok res, st') ∧
     status res = 400 ∧ client_error res ∧
     st_db st' = st_db st ∧ st_db_calls st' = st_db_calls st).
Proof.
  intros Hsig. unfold ServerJs.webhook, Part000.webhook. rewrite Hsig.
  split; eexists _, _; run; (split; [reflexivity|]);
    unfold client_error; simpl; repeat split; lia.
Qed.

Lemma webhook_bad_signature_no_write_witness :
  (∃ res st', ServerJs.webhook (Fixtures.world Fixtures.pg)
       {| raw_body := "lifetime"; stripe_signature := JStr "forged" |}
       (Fixtures.boot Fixtures.two_users) = (Ok res, st') ∧
     status res = 400 ∧ client_error res ∧
     st_db st' = Fixtures.two_users ∧ st_db_calls st' = []) ∧
  (∃ res st', Part000.webhook (Fixtures.world Fixtures.pg)
       {| raw_body := "lifetime"; stripe_signature := JStr "forged" |}
       (Fixtures.boot Fixtures.two_users) = (Ok res, st') ∧
     status res = 400 ∧ client_error res ∧
     st_db st' = Fixtures.two_users ∧ st_db_calls st' = []).
Proof.
  apply (webhook_bad_signature_no_write (Fixtures.world Fixtures.pg)
    {| raw_body := "lifetime"; stripe_signature := JStr "forged" |}
    (Fixtures.boot Fixtures.two_users)
    {| message :=
      "No signatures found matching the expected signature for payload" |}).
  reflexivity.
Defined.

(** ** Seven calendar days *)



(** ** JSON bodies and patched rows *)

Lemma json_lookup (o : gmap string jsval) (k : string) :
  json o !! k =
    match o !! k with
    | Some JUndefined | None => None
    | Some v => Some v
    end.
Proof.
  unfold json. rewrite map_lookup_filter.
  destruct (o !! k) as [v|]; simpl; [|done].
  destruct v; simpl; try done; by rewrite option_guard_True.
Qed.

Lemma json_no_undefined (o : gmap string jsval) (k : string) :
  json o !! k ≠ Some JUndefined.
Proof. rewrite json_lookup. by repeat case_match. Qed.

(** A matched row takes the patch's value where the patch has one and keeps
    its own elsewhere; any other row is kept. *)
Lemma apply_patch_match patch col v r :
  eq_match r col v = true → apply_patch patch col v r = patch ∪ r.
Proof. unfold apply_patch. by intros ->. Qed.

Lemma apply_patch_other patch col v r :
  eq_match r col v = false → apply_patch patch col v r = r.
Proof. unfold apply_patch. by intros ->. Qed.

Lemma patched_lookup_Some (patch r : gmap string jsval) k x :
  patch !! k = Some x → (patch ∪ r) !! k = Some x.
Proof. intros. by apply lookup_union_Some_l. Qed.

Lemma patched_lookup_None (patch r : gmap string jsval) k :
  patch !! k = None → (patch ∪ r) !! k = r !! k.
Proof. intros. by apply lookup_union_r. Qed.

(** On a text cell the filter is string equality; a NULL cell matches
    nothing. *)
Lemma eq_match_text r col s s' :
  r !! col = Some (JStr s') →
  eq_match r col (JStr s) = true ↔ s' = s.
Proof.
  intros Hc. unfold eq_match. rewrite Hc. simpl. apply String.eqb_eq.
Qed.

Lemma eq_match_null r col v :
  r !! col = Some JNull ∨ r !! col = None → eq_match r col v = false.
Proof. unfold eq_match. by intros [-> | ->]. Qed.

(** ** Checkout completed *)

(** Column [col] of row [i] of the profiles table. *)
Definition cell (d : db) (i : nat) (col : string) : option jsval :=
  profiles d !! i ≫= (.!! col).

(** The request passed the signature check and carries [ev]. *)
Definition verified (W : World) (req : webhook_request) (ev : event) : Prop :=
  constructEvent W (raw_body req) (stripe_signature req)
    (STRIPE_WEBHOOK_SECRET W) = Ok ev.





(** ** A datastore that works *)

(** The Supabase client carries out every call and never throws. *)
Definition reliable (W : World) : Prop :=
  ∀ c d, supabase W c d = Ok (pg_exec c d).

Lemma reliable_pg : reliable (Fixtures.world Fixtures.pg).
Proof. intros c d. reflexivity. Qed.

(** Row [i] of the table before and after a call, related by [R]. *)
Definition rowwise (R : gmap string jsval → gmap string jsval → Prop)
    (before after : list (gmap string jsval)) : Prop :=
  length after = length before ∧
  ∀ i r, before !! i = Some r → ∃ r', after !! i = Some r' ∧ R r r'.

Lemma rowwise_fmap (R : gmap string jsval → gmap string jsval → Prop)
    (f : gmap string jsval → gmap string jsval)
    (rows : list (gmap string jsval)) :
  (∀ r, R r (f r)) → rowwise R rows (f <$> rows).
Proof.
  intros HR. split; [apply length_fmap|].
  intros i r Hi. exists (f r). split; [|apply HR].
  by rewrite list_lookup_fmap, Hi.
Qed.

Lemma rowwise_refl (R : gmap string jsval → gmap string jsval → Prop) rows :
  (∀ r, R r r) → rowwise R rows rows.
Proof. intros HR. split; [done|]. intros i r Hi. eauto. Qed.

(** C3, as stated, fails on [part_000]: a verified lifetime checkout
    without a subscription field is reconciled by one profile update and
    no Payment Event Record is inserted. *)
Lemma lifetime_checkout_counterexample :
  let out := Part000.webhook (Fixtures.world Fixtures.pg)
               (Fixtures.signed "lifetime") (Fixtures.boot Fixtures.two_users) in
  o_metadata Fixtures.lifetime_session =
    Some {| md_userId := JStr "u1"; md_plan := JStr "lifetime" |} ∧
  o_subscription Fixtures.lifetime_session = JUndefined ∧
  out.1 = Ok (res_json 200 [("received", JBool true)]) ∧
  payment_history (st_db out.2) = [] ∧
  length (st_db_calls out.2) = 1%nat ∧
  Forall (λ c, ∀ row, c.1 ≠ InsertPayment row) (st_db_calls out.2).
Proof.
  vm_compute. repeat split; try reflexivity.
  repeat constructor; intros row; discriminate.
Qed.

(** C3, amended. For a verified checkout-completed event with
    [metadata.plan = "lifetime"] and no subscription id, on a datastore
    that carries out its calls:
    - [server.js], when the session's currency is a string, sets status =
      active and tier = lifetime on every profile whose id is
      [metadata.userId], leaves the other profiles as they are, and appends
      exactly one Payment Event Record, with [payment_type = "one_time"];
    - [part_000] sets status = active and tier = lifetime on every profile
      whose id is [client_reference_id], leaves the others as they are, and
      inserts no Payment Event Record. *)
Theorem lifetime_checkout (W : World) (req : webhook_request) (ev : event)
    (st : state) (md : metadata) :
  reliable W →
  verified W req ev →
  ev_type ev = "checkout.session.completed" →
  let session := ev_object ev in
  o_metadata session = Some md →
  md_plan md = JStr "lifetime" →
  truthy (o_subscription session) = false →
  (∀ cur, o_currency session = JStr cur →
     let out := ServerJs.webhook W req st in
     out.1 = Ok (res_json 200 [("received", JBool true)]) ∧
     rowwise (λ r r',
         if eq_match r "id" (md_userId md)
         then r' !! "subscription_status" = Some (JStr "active") ∧
              r' !! "subscription_tier" = Some (JStr "lifetime")
         else r' = r)
       (profiles (st_db st)) (profiles (st_db out.2)) ∧
     ∃ row, payment_history (st_db out.2) = payment_history (st_db st) ++ [row] ∧
            payment_type row = "one_time" ∧
            ∃ patch, st_db_calls out.2 = st_db_calls st ++
              [(UpdateProfiles patch "id" (md_userId md), None);
               (InsertPayment row, None)]) ∧
  (let out := Part000.webhook W req st in
   out.1 = Ok (res_json 200 [("received", JBool true)]) ∧
   rowwise (λ r r',
       if truthy (o_client_reference_id session)
          && eq_match r "id" (o_client_reference_id session)
       then r' !! "subscription_status" = Some (JStr "active") ∧
            r' !! "subscription_tier" = Some (JStr "lifetime")
       else r' = r)
     (profiles (st_db st)) (profiles (st_db out.2)) ∧
   payment_history (st_db out.2) = payment_history (st_db st) ∧
   Forall (λ c, ∀ row, c.1 ≠ InsertPayment row)
     (drop (length (st_db_calls st)) (st_db_calls out.2))).
Proof.
  intros Hrel Hv Hty session Hmd Hplan Hsub. split.
  - intros cur Hcur. unfold ServerJs.webhook. rewrite Hv.
    unfold ServerJs.dispatch. rewrite Hty. simpl String.eqb. cbv iota.
    unfold ServerJs.handleCheckoutComplete. fold session.
    rewrite Hmd, Hsub, Hcur. run. rewrite !Hrel. run. rewrite !Hplan. simpl.
    split; [reflexivity|]. split.
    + apply rowwise_fmap. intros r. unfold apply_patch.
      destruct (eq_match r "id" (md_userId md)); [|done].
      split; apply patched_lookup_Some; rewrite json_lookup;
        simplify_map_eq; [by case_match | done].
    + eexists. split; [reflexivity|]. split; [reflexivity|].
      eexists. rewrite <- app_assoc. reflexivity.
  - unfold Part000.webhook. rewrite Hv, Hty. simpl String.eqb. cbv iota.
    fold session. rewrite Hmd. cbv iota. rewrite Hplan, Hsub. simpl js_or.
    unfold js_and. destruct (truthy (o_client_reference_id session)) eqn:Hu.
    + run. rewrite Hrel. run. split; [reflexivity|]. split.
      * apply rowwise_fmap. intros r. unfold apply_patch.
        destruct (eq_match r "id" _); [|done].
        split; apply patched_lookup_Some; rewrite json_lookup;
          by simplify_map_eq.
      * split; [reflexivity|]. rewrite drop_app_length.
        repeat constructor. intros row. discriminate.
    + assert (truthy (o_client_reference_id session) = false) as -> by done.
      run. split; [reflexivity|]. split; [by apply rowwise_refl|].
      split; [reflexivity|]. rewrite drop_all. constructor.
Qed.

Lemma lifetime_checkout_witness :
  ∃ row,
    payment_history (st_db (ServerJs.webhook (Fixtures.world Fixtures.pg)
      (Fixtures.signed "lifetime") (Fixtures.boot Fixtures.two_users)).2) = [row] ∧
    payment_type row = "one_time".
Proof.
  destruct (lifetime_checkout (Fixtures.world Fixtures.pg)
    (Fixtures.signed "lifetime")
    {| ev_id := "evt_1"; ev_type := "checkout.session.completed";
       ev_object := Fixtures.lifetime_session |}
    (Fixtures.boot Fixtures.two_users)
    {| md_userId := JStr "u1"; md_plan := JStr "lifetime" |}
    (λ c d, eq_refl) eq_refl eq_refl eq_refl eq_refl eq_refl) as [Hserver _].
  destruct (Hserver "usd" eq_refl) as (_ & _ & row & Hrows & Htype & _).
  exists row. split; assumption.
Defined.

(** ** Redelivery *)

(** The Payment Event Record [server.js] builds for a completed checkout. *)
Definition payment_of (session : stripe_object) (md : metadata) (cur : string)
    : payment_event :=
  {| user_id := md_userId md;
     stripe_payment_id := js_or (o_payment_intent session) (o_id session);
     amount := Qmake (default 0 (o_amount_total session)) 100;
     currency := toUpperCase cur;
     payment_type := if is_str (md_plan md) "lifetime" then "one_time"
                     else "subscription";
     pe_status := "succeeded" |}.

Lemma ServerJs_checkout_appends (W : World) (req : webhook_request) (ev : event)
    (st : state) (md : metadata) (cur : string) :
  reliable W →
  verified W req ev →
  ev_type ev = "checkout.session.completed" →
  o_metadata (ev_object ev) = Some md →
  o_currency (ev_object ev) = JStr cur →
  payment_history (st_db (ServerJs.webhook W req st).2) =
    payment_history (st_db st) ++ [payment_of (ev_object ev) md cur].
Proof.
  intros Hrel Hv Hty Hmd Hcur. unfold ServerJs.webhook. rewrite Hv.
  unfold ServerJs.dispatch. rewrite Hty. simpl String.eqb. cbv iota.
  unfold ServerJs.handleCheckoutComplete. rewrite Hmd, Hcur.
  destruct (truthy (o_subscription (ev_object ev))); run;
    rewrite !Hrel; run; reflexivity.
Qed.

Lemma Part000_never_inserts (W : World) (req : webhook_request) (st : state) :
  reliable W →
  payment_history (st_db (Part000.webhook W req st).2) =
    payment_history (st_db st).
Proof.
  intros Hrel. unfold Part000.webhook.
  destruct (constructEvent W _ _ _) as [ev|e]; run; [|reflexivity].
  destruct (String.eqb (ev_type ev) _); run; [|reflexivity].
  destruct (truthy (js_and _ _)); run; [|reflexivity].
  rewrite Hrel. reflexivity.
Qed.

(** C4, as stated, fails on [server.js]: the same verified
    checkout-completed event (event id evt_1), delivered twice, leaves two
    Payment Event Records for that checkout. *)
Lemma duplicate_delivery_counterexample :
  let W := Fixtures.world Fixtures.pg in
  let once := (ServerJs.webhook W (Fixtures.signed "lifetime")
                 (Fixtures.boot Fixtures.two_users)).2 in
  let twice := (ServerJs.webhook W (Fixtures.signed "lifetime") once).2 in
  let row := {| user_id := JStr "u1"; stripe_payment_id := JStr "pi_1";
                amount := Qmake 4999 100; currency := "USD";
                payment_type := "one_time"; pe_status := "succeeded" |} in
  constructEvent W "lifetime" (JStr "good") (STRIPE_WEBHOOK_SECRET W) =
    Ok {| ev_id := "evt_1"; ev_type := "checkout.session.completed";
          ev_object := Fixtures.lifetime_session |} ∧
  payment_history (st_db once) = [row] ∧
  payment_history (st_db twice) = [row; row].
Proof. vm_compute. repeat split; reflexivity. Qed.

(** C4, amended. [server.js] does not deduplicate on the event id: on a
    datastore that carries out its calls, every delivery of a verified
    checkout-completed event whose session has metadata and a string
    currency appends one Payment Event Record, so the same event delivered
    twice leaves two equal records. [part_000] never inserts a Payment
    Event Record, whatever it is sent. *)
Theorem duplicate_delivery (W : World) (req : webhook_request) (ev : event)
    (st : state) (md : metadata) (cur : string) :
  reliable W →
  verified W req ev →
  ev_type ev = "checkout.session.completed" →
  o_metadata (ev_object ev) = Some md →
  o_currency (ev_object ev) = JStr cur →
  (let once := (ServerJs.webhook W req st).2 in
   let twice := (ServerJs.webhook W req once).2 in
   let row := payment_of (ev_object ev) md cur in
   payment_history (st_db once) = payment_history (st_db st) ++ [row] ∧
   payment_history (st_db twice) = payment_history (st_db st) ++ [row; row]) ∧
  (let once := (Part000.webhook W req st).2 in
   let twice := (Part000.webhook W req once).2 in
   payment_history (st_db twice) = payment_history (st_db st)).
Proof.
  intros Hrel Hv Hty Hmd Hcur. split.
  - simpl. split; [by apply ServerJs_checkout_appends|].
    rewrite !(ServerJs_checkout_appends W req ev _ md cur) by done.
    by rewrite <- app_assoc.
  - simpl. by rewrite !Part000_never_inserts.
Qed.

Lemma duplicate_delivery_witness :
  let W := Fixtures.world Fixtures.pg in
  let once := (ServerJs.webhook W (Fixtures.signed "weekly")
                 (Fixtures.boot Fixtures.two_users)).2 in
  let twice := (ServerJs.webhook W (Fixtures.signed "weekly") once).2 in
  length (payment_history (st_db twice)) = 2%nat.
Proof.
  pose proof (duplicate_delivery (Fixtures.world Fixtures.pg)
    (Fixtures.signed "weekly")
    {| ev_id := "evt_2"; ev_type := "checkout.session.completed";
       ev_object := Fixtures.weekly_session |}
    (Fixtures.boot Fixtures.two_users)
    {| md_userId := JStr "u1"; md_plan := JStr "weekly" |} "usd"
    (λ c d, eq_refl) eq_refl eq_refl eq_refl eq_refl) as H.
  cbv zeta in H. destruct H as [[_ Htwice] _].
  cbv zeta. rewrite Htwice. reflexivity.
Defined.

(** The four subscription-lifecycle events of the claim. *)
Definition lifecycle_event (type : string) : Prop :=
  type = "customer.subscription.updated" ∨
  type = "customer.subscription.deleted" ∨
  type = "invoice.payment_succeeded" ∨
  type = "invoice.payment_failed".

(** The datastore calls a delivery adds to the journal. *)
Definition new_calls (before after : state) : list (call * option exn) :=
  drop (length (st_db_calls before)) (st_db_calls after).

Lemma rowwise_fmap2 (R : gmap string jsval → gmap string jsval → Prop)
    (f g : gmap string jsval → gmap string jsval)
    (rows : list (gmap string jsval)) :
  (∀ r, R (f r) (g (f r))) → rowwise R (f <$> rows) (g <$> (f <$> rows)).
Proof.
  intros HR. split; [by rewrite !length_fmap|].
  intros i r Hi. rewrite list_lookup_fmap in Hi.
  destruct (rows !! i) as [r0|] eqn:Hr0; simplify_eq/=.
  exists (g (f r0)). split; [|apply HR].
  by rewrite !list_lookup_fmap, Hr0.
Qed.

(** A patch that does not write the filter column matches the same rows
    when it is sent again. *)
Lemma eq_match_patched patch r col v :
  patch !! col = None → eq_match (patch ∪ r) col v = eq_match r col v.
Proof. intros Hp. unfold eq_match. by rewrite patched_lookup_None. Qed.

Lemma apply_patch_again p1 p2 col v r c :
  p1 !! col = None →
  p2 !! c = p1 !! c →
  apply_patch p2 col v (apply_patch p1 col v r) !! c =
    apply_patch p1 col v r !! c.
Proof.
  intros Hcol Hc. unfold apply_patch at 2 3.
  destruct (eq_match r col v) eqn:Hm.
  - unfold apply_patch. rewrite eq_match_patched, Hm by done.
    rewrite !lookup_union, Hc. by destruct (p1 !! c), (r !! c).
  - by rewrite apply_patch_other.
Qed.

Lemma apply_patch_idemp p col v r :
  p !! col = None →
  apply_patch p col v (apply_patch p col v r) = apply_patch p col v r.
Proof.
  intros Hcol. apply map_eq. intros c. by apply apply_patch_again.
Qed.

(** C5, as stated, fails on [server.js]: the subscription-updated event
    evt_4 delivered twice, one second apart, leaves the matching record
    with another [last_payment_date] than one delivery does. *)
Lemma redelivery_counterexample :
  let W := Fixtures.world Fixtures.pg in
  let once := (ServerJs.webhook W (Fixtures.signed "updated")
                 (Fixtures.boot Fixtures.subscribed)).2 in
  let twice := (ServerJs.webhook W (Fixtures.signed "updated") once).2 in
  cell (st_db once) 0 "stripe_subscription_id" = Some (JStr "sub_1") ∧
  cell (st_db once) 0 "last_payment_date" =
    Some (JStr "2023-11-14T22:13:20.000Z") ∧
  cell (st_db twice) 0 "last_payment_date" =
    Some (JStr "2023-11-14T22:13:21.000Z") ∧
  st_db twice ≠ st_db once.
Proof.
  intros W once twice.
  split; [vm_compute; reflexivity|].
  split; [vm_compute; reflexivity|].
  split; [vm_compute; reflexivity|].
  intros Heq.
  assert (cell (st_db twice) 0 "last_payment_date" =
          cell (st_db once) 0 "last_payment_date") as Habs by (by rewrite Heq).
  vm_compute in Habs. discriminate.
Qed.

(** C5, amended. On a datastore that carries out its calls, the mutation
    [server.js] performs for a subscription-updated, subscription-deleted,
    invoice-payment-succeeded or invoice-payment-failed event does not
    depend on the record's prior value: the calls it issues are fixed by
    the event and by the handler's clock reading. The status and tier it
    writes come from the event alone, but [last_payment_date] and
    [subscription_end_date] are the clock reading at processing time.
    Redelivering the same event therefore leaves every record as it was
    after the first delivery except for these two timestamp columns; the
    record is wholly unchanged for invoice-payment-failed, which writes no
    timestamp, and whenever both deliveries read the same time.
    [part_000] ignores the four events. *)
Theorem redelivery (W : World) (req : webhook_request) (ev : event)
    (st : state) :
  reliable W →
  verified W req ev →
  lifecycle_event (ev_type ev) →
  let once := (ServerJs.webhook W req st).2 in
  let twice := (ServerJs.webhook W req once).2 in
  rowwise (λ r1 r2, ∀ col,
      col ≠ "last_payment_date" → col ≠ "subscription_end_date" →
      r2 !! col = r1 !! col)
    (profiles (st_db once)) (profiles (st_db twice)) ∧
  payment_history (st_db twice) = payment_history (st_db once) ∧
  (ev_type ev = "invoice.payment_failed" → st_db twice = st_db once) ∧
  (clock W (S (st_ticks st)) = clock W (st_ticks st) →
     st_db twice = st_db once) ∧
  (∀ st0, st_ticks st0 = st_ticks st →
     new_calls st0 (ServerJs.webhook W req st0).2 = new_calls st once) ∧
  st_db (Part000.webhook W req st).2 = st_db st.
Proof.
  intros Hrel Hv Hev once twice. subst twice once.
  unfold new_calls, ServerJs.webhook, Part000.webhook. rewrite Hv.
  unfold ServerJs.dispatch.
  destruct Hev as [Hty|[Hty|[Hty|Hty]]]; rewrite Hty; simpl String.eqb;
    cbv iota.
  - unfold ServerJs.handleSubscriptionUpdate. run. rewrite !Hrel. run.
    split; [apply rowwise_fmap2; intros r col Hc1 Hc2; apply apply_patch_again;
            rewrite !json_lookup;
            [by simplify_map_eq
            |by rewrite !(lookup_insert_ne _ "last_payment_date")]|].
    split; [reflexivity|]. split; [discriminate|].
    split; [intros ->; f_equal; rewrite <- list_fmap_compose;
            apply list_fmap_ext; intros i r _; apply apply_patch_idemp;
            rewrite json_lookup; by simplify_map_eq|].
    split; [|reflexivity].
    intros st0 Ht. rewrite Hrel. run. by rewrite !drop_app_length, Ht.
  - unfold ServerJs.handleSubscriptionDeleted. run. rewrite !Hrel. run.
    split; [apply rowwise_fmap2; intros r col Hc1 Hc2; apply apply_patch_again;
            rewrite !json_lookup;
            [by simplify_map_eq
            |by rewrite !(lookup_insert_ne _ "subscription_end_date")]|].
    split; [reflexivity|]. split; [discriminate|].
    split; [intros ->; f_equal; rewrite <- list_fmap_compose;
            apply list_fmap_ext; intros i r _; apply apply_patch_idemp;
            rewrite json_lookup; by simplify_map_eq|].
    split; [|reflexivity].
    intros st0 Ht. rewrite Hrel. run. by rewrite !drop_app_length, Ht.
  - unfold ServerJs.handlePaymentSucceeded.
    destruct (truthy (o_subscription (ev_object ev))); run.
    + rewrite !Hrel. run.
      split; [apply rowwise_fmap2; intros r col Hc1 Hc2; apply apply_patch_again;
              rewrite !json_lookup;
              [by simplify_map_eq
              |by rewrite !(lookup_insert_ne _ "last_payment_date")]|].
      split; [reflexivity|]. split; [discriminate|].
      split; [intros ->; f_equal; rewrite <- list_fmap_compose;
              apply list_fmap_ext; intros i r _; apply apply_patch_idemp;
              rewrite json_lookup; by simplify_map_eq|].
      split; [|reflexivity].
      intros st0 Ht. rewrite Hrel. run. by rewrite !drop_app_length, Ht.
    + split; [by apply rowwise_refl|]. repeat split; try reflexivity.
      intros st0 _. by rewrite !drop_all.
  - unfold ServerJs.handlePaymentFailed. run. rewrite !Hrel. run.
    assert (∀ rows : list (gmap string jsval),
      apply_patch (json (<["subscription_status":=JStr "past_due"]> ∅))
        "stripe_subscription_id" (o_subscription (ev_object ev)) <$>
      (apply_patch (json (<["subscription_status":=JStr "past_due"]> ∅))
        "stripe_subscription_id" (o_subscription (ev_object ev)) <$> rows) =
      apply_patch (json (<["subscription_status":=JStr "past_due"]> ∅))
        "stripe_subscription_id" (o_subscription (ev_object ev)) <$> rows)
      as Hidem.
    { intros rows. rewrite <- list_fmap_compose. apply list_fmap_ext.
      intros i r _. apply apply_patch_idemp. rewrite json_lookup.
      by simplify_map_eq. }
    rewrite Hidem.
    split; [by apply rowwise_refl|]. repeat split; try reflexivity.
    intros st0 _. rewrite Hrel. run. by rewrite !drop_app_length.
Qed.

Lemma redelivery_witness :
  let W := Fixtures.world Fixtures.pg in
  let once := (ServerJs.webhook W (Fixtures.signed "failed")
                 (Fixtures.boot Fixtures.subscribed)).2 in
  let twice := (ServerJs.webhook W (Fixtures.signed "failed") once).2 in
  st_db twice = st_db once.
Proof.
  pose proof (redelivery (Fixtures.world Fixtures.pg) (Fixtures.signed "failed")
    {| ev_id := "evt_7"; ev_type := "invoice.payment_failed";
       ev_object := Fixtures.invoice_1 |}
    (Fixtures.boot Fixtures.subscribed)
    (λ c d, eq_refl) eq_refl
    (or_intror (or_intror (or_intror eq_refl)))) as H.
  cbv zeta in H. destruct H as (_ & _ & Hfailed & _).
  cbv zeta. apply Hfailed. reflexivity.
Defined.

(** ** Datastore failures *)

(** Decomposes membership in the calls a delivery added to the journal. *)
Ltac journal H :=
  unfold new_calls in H; simpl in H;
  rewrite <- ?app_assoc, ?drop_app_length, ?drop_all in H; simpl in H;
  repeat (apply elem_of_cons in H as [H|H]);
  try (by apply elem_of_nil in H); simplify_eq.

(** C6, as stated, fails on [part_000]: with the datastore down, the
    update of a verified checkout-completed event throws, the handler logs
    it and acknowledges the event with 200; the mutation is not applied. *)
Lemma datastore_failure_counterexample :
  let out := Part000.webhook (Fixtures.world Fixtures.down)
               (Fixtures.signed "lifetime") (Fixtures.boot Fixtures.two_users) in
  snd <$> st_db_calls out.2 = [Some {| message := "fetch failed" |}] ∧
  out.1 = Ok (res_json 200 [("received", JBool true)]) ∧
  st_db out.2 = Fixtures.two_users ∧
  st_console out.2 = ["Supabase update error in webhook: fetch failed"].
Proof. vm_compute. repeat split; reflexivity. Qed.

(** In [server.js] a datastore call that throws ends the handler with that
    exception; nothing has been logged by then. *)
Lemma dispatch_failure (W : World) (ev : event) (st : state) (c : call)
    (e : exn) :
  (c, Some e) ∈ new_calls st (ServerJs.dispatch W ev st).2 →
  (ServerJs.dispatch W ev st).1 = Throw e ∧
  st_console (ServerJs.dispatch W ev st).2 = st_console st.
Proof.
  unfold ServerJs.dispatch.
  destruct (String.eqb (ev_type ev) "checkout.session.completed").
  { unfold ServerJs.handleCheckoutComplete.
    destruct (o_metadata (ev_object ev)) as [md|]; run;
      [|intros Hin; journal Hin].
    destruct (truthy (o_subscription (ev_object ev))); run;
      (destruct (supabase W _ _); run;
       [destruct (o_currency (ev_object ev)); run;
        try destruct (supabase W _ _); run|]);
      intros Hin; journal Hin; done. }
  destruct (String.eqb (ev_type ev) "customer.subscription.updated").
  { unfold ServerJs.handleSubscriptionUpdate. run.
    destruct (supabase W _ _); run; intros Hin; journal Hin; done. }
  destruct (String.eqb (ev_type ev) "customer.subscription.deleted").
  { unfold ServerJs.handleSubscriptionDeleted. run.
    destruct (supabase W _ _); run; intros Hin; journal Hin; done. }
  destruct (String.eqb (ev_type ev) "invoice.payment_succeeded").
  { unfold ServerJs.handlePaymentSucceeded.
    destruct (truthy (o_subscription (ev_object ev))); run;
      [|intros Hin; journal Hin].
    destruct (supabase W _ _); run; intros Hin; journal Hin; done. }
  destruct (String.eqb (ev_type ev) "invoice.payment_failed").
  { unfold ServerJs.handlePaymentFailed. run.
    destruct (supabase W _ _); run; intros Hin; journal Hin; done. }
  run. intros Hin; journal Hin.
Qed.

(** C6, amended. For a verified webhook event during which a datastore
    call throws:
    - [server.js] logs the error and answers 500, a server error;
    - [part_000] catches the exception, logs it and still acknowledges the
      event with 200 [{received: true}]. *)
Theorem datastore_failure (W : World) (req : webhook_request) (ev : event)
    (st : state) (c : call) (e : exn) :
  verified W req ev →
  (let out := ServerJs.webhook W req st in
   (c, Some e) ∈ new_calls st out.2 →
   out.1 = Ok (res_send 500 "Webhook handler failed") ∧
   server_error (res_send 500 "Webhook handler failed") ∧
   st_console out.2 = st_console st ++ ["Webhook error: " +:+ message e]) ∧
  (let out := Part000.webhook W req st in
   (c, Some e) ∈ new_calls st out.2 →
   out.1 = Ok (res_json 200 [("received", JBool true)]) ∧
   st_console out.2 =
     st_console st ++ ["Supabase update error in webhook: " +:+ message e]).
Proof.
  intros Hv. split.
  - pose proof (dispatch_failure W ev st c e) as Hd.
    unfold ServerJs.webhook. rewrite Hv. run.
    destruct (ServerJs.dispatch W ev st) as [[[]|e'] st'];
      simpl in *; intros Hin; destruct (Hd Hin) as [He Hcon]; simplify_eq.
    rewrite Hcon. split; [reflexivity|]. split; [|reflexivity].
    unfold server_error. simpl. lia.
  - unfold Part000.webhook. rewrite Hv.
    destruct (String.eqb (ev_type ev) "checkout.session.completed"); run;
      [|intros Hin; journal Hin].
    destruct (truthy (js_and _ _)); run; [|intros Hin; journal Hin].
    destruct (supabase W _ _); run; intros Hin; journal Hin; done.
Qed.

Lemma datastore_failure_witness :
  let out := ServerJs.webhook (Fixtures.world Fixtures.down)
               (Fixtures.signed "failed") (Fixtures.boot Fixtures.subscribed) in
  out.1 = Ok (res_send 500 "Webhook handler failed") ∧
  st_console out.2 = ["Webhook error: fetch failed"].
Proof.
  pose proof (datastore_failure (Fixtures.world Fixtures.down)
    (Fixtures.signed "failed")
    {| ev_id := "evt_7"; ev_type := "invoice.payment_failed";
       ev_object := Fixtures.invoice_1 |}
    (Fixtures.boot Fixtures.subscribed)
    (UpdateProfiles (json (<["subscription_status":=JStr "past_due"]> ∅))
       "stripe_subscription_id" (JStr "sub_1"))
    {| message := "fetch failed" |} eq_refl) as [Hserver _].
  cbv zeta in Hserver.
  destruct Hserver as (Hres & _ & Hlog).
  - vm_compute. constructor.
  - split; assumption.
Defined.

(** ** Checkout-session creation *)

(** [server.js] validates nothing: every request reaches the processor,
    exactly once, with the price looked up for its plan and with a trial
    attached exactly when the plan is weekly and [skipTrial] is falsy; a
    processor failure comes back as a 400 carrying the processor's
    message. *)
Lemma ServerJs_always_calls (W : World) (b : checkout_body) (st : state) :
  ∃ cfg,
    st_stripe_calls (ServerJs.create_checkout_session W b st).2 =
      st_stripe_calls st ++ [cfg] ∧
    cfg_price cfg = prices_get W (b_plan b) ∧
    cfg_subscription_data cfg =
      (if is_str (b_plan b) "weekly" && negb (truthy (b_skipTrial b))
       then Some 7 else None) ∧
    (∀ e, sessions_create W cfg = Throw e →
       (ServerJs.create_checkout_session W b st).1 =
         Ok (res_json 400 [("error", JStr (message e))])).
Proof.
  unfold ServerJs.create_checkout_session. run.
  destruct (is_str (b_plan b) "weekly" && negb (truthy (b_skipTrial b)));
    eexists; (split; [destruct (sessions_create W _); reflexivity|]);
    simpl; (split; [reflexivity|]); (split; [reflexivity|]);
    intros e ->; reflexivity.
Qed.

Lemma Object_prototype_get_other (key : string) :
  key ∉ Object_prototype_keys → Object_prototype_get key = JUndefined.
Proof.
  intros Hkey. unfold Object_prototype_get.
  destruct (String.eqb key "__proto__") eqn:E1.
  { apply String.eqb_eq in E1. subst. exfalso. apply Hkey.
    unfold Object_prototype_keys. set_solver. }
  destruct (String.eqb key "constructor") eqn:E2.
  { apply String.eqb_eq in E2. subst. exfalso. apply Hkey.
    unfold Object_prototype_keys. set_solver. }
  by rewrite bool_decide_eq_false_2.
Qed.

(** C7, as stated, fails on [server.js]: a request for the unknown plan
    ["gold"] is sent to the processor, without a price; the 400 that comes
    back carries the processor's error. *)
Lemma unknown_plan_counterexample :
  let out := ServerJs.create_checkout_session (Fixtures.world Fixtures.pg)
               {| b_plan := JStr "gold"; b_userId := JStr "u1";
                  b_email := JStr "u1@example.org"; b_skipTrial := JUndefined |}
               (Fixtures.boot Fixtures.two_users) in
  cfg_price <$> st_stripe_calls out.2 = [JUndefined] ∧
  out.1 = Ok (res_json 400 [("error", JStr "No such price")]).
Proof. vm_compute. split; reflexivity. Qed.

(** C7, amended. For a checkout request whose plan names neither
    ["weekly"] nor ["lifetime"]:
    - [part_000], when the plan is not the name of a property inherited
      from [Object.prototype], answers 400 with an error naming the
      problem (missing fields, or "Unknown plan") and does nothing else:
      no call to the processor, no other effect;
    - [server.js] has no validation: it calls the processor once, with the
      price its lookup gives, and answers 400 with the processor's message
      when the processor rejects the session. *)
Theorem unknown_plan (W : World) (b : checkout_body) (st : state) :
  text (b_plan b) ≠ "weekly" →
  text (b_plan b) ≠ "lifetime" →
  (text (b_plan b) ∉ Object_prototype_keys →
   Part000.create_checkout_session W b st =
     (Ok (res_json 400
        [("error",
          JStr (if truthy (b_plan b) && truthy (b_userId b) && truthy (b_email b)
                then "Unknown plan"
                else "Missing plan, userId, or email"))]), st) ∧
   client_error (res_json 400 [])) ∧
  (∃ cfg,
     st_stripe_calls (ServerJs.create_checkout_session W b st).2 =
       st_stripe_calls st ++ [cfg] ∧
     cfg_price cfg = Object_prototype_get (text (b_plan b)) ∧
     (∀ e, sessions_create W cfg = Throw e →
        (ServerJs.create_checkout_session W b st).1 =
          Ok (res_json 400 [("error", JStr (message e))]))).
Proof.
  intros Hweekly Hlifetime.
  assert (prices_get W (b_plan b) = Object_prototype_get (text (b_plan b)))
    as Hprice.
  { unfold prices_get.
    destruct (String.eqb (text (b_plan b)) "weekly") eqn:E1;
      [by apply String.eqb_eq in E1|].
    destruct (String.eqb (text (b_plan b)) "lifetime") eqn:E2;
      [by apply String.eqb_eq in E2|]. done. }
  split.
  - intros Hproto. split; [|unfold client_error; simpl; lia].
    unfold Part000.create_checkout_session. run.
    rewrite Hprice, Object_prototype_get_other by done. simpl.
    destruct st.
    by destruct (truthy (b_plan b)), (truthy (b_userId b)),
      (truthy (b_email b)).
  - destruct (ServerJs_always_calls W b st) as (cfg & Hcalls & Hp & _ & Herr).
    exists cfg. by rewrite <- Hprice.
Qed.

Lemma unknown_plan_witness :
  Part000.create_checkout_session (Fixtures.world Fixtures.pg)
    {| b_plan := JStr "gold"; b_userId := JStr "u1";
       b_email := JStr "u1@example.org"; b_skipTrial := JUndefined |}
    (Fixtures.boot Fixtures.two_users) =
  (Ok (res_json 400 [("error", JStr "Unknown plan")]),
   Fixtures.boot Fixtures.two_users).
Proof.
  refine (proj1 (proj1 (unknown_plan (Fixtures.world Fixtures.pg)
    {| b_plan := JStr "gold"; b_userId := JStr "u1";
       b_email := JStr "u1@example.org"; b_skipTrial := JUndefined |}
    (Fixtures.boot Fixtures.two_users) _ _) _)).
  - discriminate.
  - discriminate.
  - unfold Object_prototype_keys. simpl.
    rewrite !not_elem_of_cons. repeat split; try discriminate.
    apply not_elem_of_nil.
Defined.

(** C8, as stated, fails on [part_000], which never reads [skipTrial]: a
    valid weekly checkout with [skipTrial: true] is sent to the processor
    with the 7-day trial attached. *)
Lemma trial_counterexample :
  let out := Part000.create_checkout_session (Fixtures.world Fixtures.pg)
               {| b_plan := JStr "weekly"; b_userId := JStr "u1";
                  b_email := JStr "u1@example.org"; b_skipTrial := JBool true |}
               (Fixtures.boot Fixtures.two_users) in
  out.1 = Ok (res_json 200 [("url", JStr "https://checkout.example/pay")]) ∧
  cfg_subscription_data <$> st_stripe_calls out.2 = [Some 7].
Proof. vm_compute. split; reflexivity. Qed.

(** C8, amended. The session [server.js] sends to the processor carries a
    7-day trial exactly when the plan is ["weekly"] and [skipTrial] is
    falsy. The session [part_000] sends for a valid request (plan, userId
    and email present, plan with a price) carries a 7-day trial exactly
    when the plan is ["weekly"], whatever [skipTrial] is. In both, a
    lifetime checkout carries no trial. *)
Theorem trial_attached (W : World) (b : checkout_body) (st : state) :
  truthy (b_plan b) = true →
  truthy (b_userId b) = true →
  truthy (b_email b) = true →
  truthy (prices_get W (b_plan b)) = true →
  (∃ cfg,
     st_stripe_calls (ServerJs.create_checkout_session W b st).2 =
       st_stripe_calls st ++ [cfg] ∧
     cfg_subscription_data cfg =
       (if is_str (b_plan b) "weekly" && negb (truthy (b_skipTrial b))
        then Some 7 else None) ∧
     (b_plan b = JStr "lifetime" → cfg_subscription_data cfg = None)) ∧
  (∃ cfg,
     st_stripe_calls (Part000.create_checkout_session W b st).2 =
       st_stripe_calls st ++ [cfg] ∧
     cfg_subscription_data cfg =
       (if is_str (b_plan b) "weekly" then Some 7 else None) ∧
     (b_plan b = JStr "lifetime" → cfg_subscription_data cfg = None)).
Proof.
  intros Hplan Huser Hemail Hprice. split.
  - destruct (ServerJs_always_calls W b st) as (cfg & Hcalls & _ & Htrial & _).
    exists cfg. split; [done|]. split; [done|].
    intros Hl. rewrite Htrial, Hl. reflexivity.
  - unfold Part000.create_checkout_session. run.
    rewrite Hplan, Huser, Hemail, Hprice. simpl.
    eexists. split; [destruct (sessions_create W _); reflexivity|].
    simpl. split; [reflexivity|]. by intros ->.
Qed.

Lemma trial_attached_witness :
  (∃ cfg,
     st_stripe_calls (ServerJs.create_checkout_session
       (Fixtures.world Fixtures.pg)
       {| b_plan := JStr "weekly"; b_userId := JStr "u1";
          b_email := JStr "u1@example.org"; b_skipTrial := JBool true |}
       (Fixtures.boot Fixtures.two_users)).2 = [cfg] ∧
     cfg_subscription_data cfg = None) ∧
  (∃ cfg,
     st_stripe_calls (Part000.create_checkout_session
       (Fixtures.world Fixtures.pg)
       {| b_plan := JStr "weekly"; b_userId := JStr "u1";
          b_email := JStr "u1@example.org"; b_skipTrial := JBool true |}
       (Fixtures.boot Fixtures.two_users)).2 = [cfg] ∧
     cfg_subscription_data cfg = Some 7).
Proof.
  destruct (trial_attached (Fixtures.world Fixtures.pg)
    {| b_plan := JStr "weekly"; b_userId := JStr "u1";
       b_email := JStr "u1@example.org"; b_skipTrial := JBool true |}
    (Fixtures.boot Fixtures.two_users) eq_refl eq_refl eq_refl eq_refl)
    as [(cfg1 & Hc1 & Ht1 & _) (cfg2 & Hc2 & Ht2 & _)].
  split; [exists cfg1 | exists cfg2]; split; assumption.
Defined.

(** ** Subscription deleted *)

(** C9, as stated, fails on [part_000], which handles checkout-completed
    events only: a verified subscription-deleted event for sub_1 is
    acknowledged and the record holding sub_1 stays on its weekly trial. *)
Lemma subscription_deleted_counterexample :
  let out := Part000.webhook (Fixtures.world Fixtures.pg)
               (Fixtures.signed "deleted") (Fixtures.boot Fixtures.subscribed) in
  out.1 = Ok (res_json 200 [("received", JBool true)]) ∧
  st_db out.2 = Fixtures.subscribed ∧
  cell (st_db out.2) 0 "stripe_subscription_id" = Some (JStr "sub_1") ∧
  cell (st_db out.2) 0 "subscription_status" = Some (JStr "trial") ∧
  cell (st_db out.2) 0 "subscription_tier" = Some (JStr "weekly") ∧
  cell (st_db out.2) 0 "subscription_end_date" = None.
Proof. vm_compute. repeat split; reflexivity. Qed.

(** C9, amended. For a verified subscription-deleted event carrying
    subscription id S, on a datastore that carries out its calls:
    - [server.js] moves every profile whose [stripe_subscription_id]
      equals S to status = canceled and tier = free, stamps its
      [subscription_end_date] with the clock reading and keeps its other
      columns; every profile whose subscription id differs from S (or is
      null) is left exactly as it was, and so is the payment history;
    - [part_000] acknowledges the event and changes nothing. *)
Theorem subscription_deleted (W : World) (req : webhook_request) (ev : event)
    (st : state) :
  reliable W →
  verified W req ev →
  ev_type ev = "customer.subscription.deleted" →
  let S := o_id (ev_object ev) in
  (let out := ServerJs.webhook W req st in
   out.1 = Ok (res_json 200 [("received", JBool true)]) ∧
   rowwise (λ r r',
       if eq_match r "stripe_subscription_id" S
       then r' !! "subscription_status" = Some (JStr "canceled") ∧
            r' !! "subscription_tier" = Some (JStr "free") ∧
            r' !! "subscription_end_date" =
              Some (JStr (JsDate.toISOString (clock W (st_ticks st)))) ∧
            ∀ col, col ≠ "subscription_status" → col ≠ "subscription_tier" →
                   col ≠ "subscription_end_date" → r' !! col = r !! col
       else r' = r)
     (profiles (st_db st)) (profiles (st_db out.2)) ∧
   payment_history (st_db out.2) = payment_history (st_db st)) ∧
  Part000.webhook W req st =
    (Ok (res_json 200 [("received", JBool true)]), st).
Proof.
  intros Hrel Hv Hty S. split.
  - unfold ServerJs.webhook. rewrite Hv. unfold ServerJs.dispatch.
    rewrite Hty. simpl String.eqb. cbv iota.
    unfold ServerJs.handleSubscriptionDeleted. run. rewrite Hrel. run.
    split; [reflexivity|]. split; [|reflexivity].
    apply rowwise_fmap. intros r. unfold apply_patch. fold S.
    destruct (eq_match r "stripe_subscription_id" S); [|done].
    repeat split.
    1-3: apply patched_lookup_Some; rewrite json_lookup; by simplify_map_eq.
    intros col H1 H2 H3. apply patched_lookup_None.
    rewrite json_lookup. by simplify_map_eq.
  - unfold Part000.webhook. rewrite Hv, Hty. simpl. by destruct st.
Qed.

Lemma subscription_deleted_witness :
  let out := ServerJs.webhook (Fixtures.world Fixtures.pg)
               (Fixtures.signed "deleted") (Fixtures.boot Fixtures.subscribed) in
  rowwise (λ r r',
      if eq_match r "stripe_subscription_id" (JStr "sub_1")
      then r' !! "subscription_status" = Some (JStr "canceled") ∧
           r' !! "subscription_tier" = Some (JStr "free") ∧
           r' !! "subscription_end_date" =
             Some (JStr (JsDate.toISOString (Fixtures.ticking 0))) ∧
           ∀ col, col ≠ "subscription_status" → col ≠ "subscription_tier" →
                  col ≠ "subscription_end_date" → r' !! col = r !! col
      else r' = r)
    (profiles Fixtures.subscribed) (profiles (st_db out.2)).
Proof.
  pose proof (subscription_deleted (Fixtures.world Fixtures.pg)
    (Fixtures.signed "deleted")
    {| ev_id := "evt_5"; ev_type := "customer.subscription.deleted";
       ev_object := Fixtures.sub_1 |}
    (Fixtures.boot Fixtures.subscribed)
    (λ c d, eq_refl) eq_refl eq_refl) as H.
  cbv zeta in H. destruct H as [(_ & Hrows & _) _]. exact Hrows.
Defined.

(** ** The lifetime invariant *)

(** [tier = lifetime] implies [status ∈ {active, canceled}]. *)
Definition Inv (r : gmap string jsval) : Prop :=
  r !! "subscription_tier" = Some (JStr "lifetime") →
  r !! "subscription_status" = Some (JStr "active") ∨
  r !! "subscription_status" = Some (JStr "canceled").





#[global] Instance Inv_dec (r : gmap string jsval) : Decision (Inv r).
Proof. unfold Inv. apply _. Defined.


Lemma lookup_insert_eqb (m : gmap string jsval) (i j : string) (x : jsval) :
  <[i:=x]> m !! j = if String.eqb i j then Some x else m !! j.
Proof.
  destruct (String.eqb i j) eqn:E.
  - apply String.eqb_eq in E. subst. apply lookup_insert_eq.
  - apply String.eqb_neq in E. by apply lookup_insert_ne.
Qed.

(** Looks a literal key up in the JSON body of a call. *)
Ltac json_key :=
  rewrite json_lookup, !lookup_insert_eqb, ?lookup_empty;
  cbn [String.eqb Ascii.eqb Bool.eqb]; reflexivity.





(** * Further properties of the two servers *)

(** ** Events the reconciler does not handle *)

(** The five event types [server.js] reconciles. *)
Definition handled_type (type : string) : Prop :=
  type = "checkout.session.completed" ∨ lifecycle_event type.

(** X1. A verified event of a type [server.js] has no case for is acknowledged
    with 200 and has no effect at all: no datastore call, no log line, no
    clock reading. [part_000] does the same for every type other than
    checkout.session.completed. *)
Theorem unhandled_event_acknowledged (W : World) (req : webhook_request)
    (ev : event) (st : state) :
  verified W req ev →
  (¬ handled_type (ev_type ev) →
   ServerJs.webhook W req st =
     (Ok (res_json 200 [("received", JBool true)]), st)) ∧
  (ev_type ev ≠ "checkout.session.completed" →
   Part000.webhook W req st =
     (Ok (res_json 200 [("received", JBool true)]), st)).
Proof.
  intros Hv. split.
  - intros Hty. unfold ServerJs.webhook. rewrite Hv. unfold ServerJs.dispatch.
    unfold handled_type, lifecycle_event in Hty.
    repeat match goal with
    | |- context [String.eqb (ev_type ev) ?s] =>
        let E := fresh "E" in
        destruct (String.eqb (ev_type ev) s) eqn:E;
        [apply String.eqb_eq in E; exfalso; apply Hty; rewrite E; tauto
        |clear E]
    end.
    run. by destruct st.
  - intros Hty. unfold Part000.webhook. rewrite Hv.
    apply String.eqb_neq in Hty. rewrite Hty. run. by destruct st.
Qed.

Lemma unhandled_event_acknowledged_witness :
  ServerJs.webhook (world_of customer_created Fixtures.down)
    (Fixtures.signed "{}") (Fixtures.boot Fixtures.two_users) =
  (Ok (res_json 200 [("received", JBool true)]),
   Fixtures.boot Fixtures.two_users).
Proof.
  refine (proj1 (unhandled_event_acknowledged
    (world_of customer_created Fixtures.down) (Fixtures.signed "{}")
    customer_created (Fixtures.boot Fixtures.two_users) eq_refl) _).
  unfold handled_type, lifecycle_event. cbn [ev_type customer_created].
  intros [H|[H|[H|[H|H]]]]; discriminate H.
Defined.

(** ** The lifecycle handlers of [server.js] *)

(** What an update located by subscription id [v] does to the table: a
    profile whose [stripe_subscription_id] matches [v] takes the [written]
    columns and keeps every other column; any other profile is kept. *)
Definition updates_by_subscription (v : jsval)
    (written : list (string * jsval))
    (before after : list (gmap string jsval)) : Prop :=
  rowwise (λ r r',
      if eq_match r "stripe_subscription_id" v
      then (∀ col x, (col, x) ∈ written → r' !! col = Some x) ∧
           (∀ col, col ∉ written.*1 → r' !! col = r !! col)
      else r' = r)
    before after.

Lemma update_by_subscription (patch : gmap string jsval) (v : jsval)
    (written : list (string * jsval)) (rows : list (gmap string jsval)) :
  (∀ col x, (col, x) ∈ written → patch !! col = Some x) →
  (∀ col, col ∉ written.*1 → patch !! col = None) →
  updates_by_subscription v written rows
    (apply_patch patch "stripe_subscription_id" v <$> rows).
Proof.
  intros Hw Hn. apply rowwise_fmap. intros r. unfold apply_patch.
  destruct (eq_match r "stripe_subscription_id" v); [|reflexivity]. split.
  - intros col x Hin. apply patched_lookup_Some. by apply Hw.
  - intros col Hin. apply patched_lookup_None. by apply Hn.
Qed.

(** The keys and values of a JSON body built from literal keys. *)
Ltac written_keys :=
  let col := fresh "col" in let x := fresh "x" in let Hin := fresh "Hin" in
  first
    [ intros col x Hin;
      repeat (apply elem_of_cons in Hin as [Hin|Hin];
              [injection Hin as -> ->; json_key|]);
      apply elem_of_nil in Hin; destruct Hin
    | intros col Hin; rewrite json_lookup, !lookup_insert_eqb, lookup_empty;
      cbn [fmap list_fmap fst] in Hin;
      repeat match goal with
      | |- context [String.eqb ?k col] =>
          let E := fresh "E" in
          destruct (String.eqb k col) eqn:E;
          [apply String.eqb_eq in E; subst col; exfalso; apply Hin;
           repeat first [apply list_elem_of_here | apply list_elem_of_further]
          |clear E]
      end;
      reflexivity ].

(** X2. A verified customer.subscription.updated event, on a datastore that
    carries out its calls: the profiles holding the subscription's id get
    status trial for a trialing subscription, active for an active one and
    past_due for any other status, and the clock reading as
    [last_payment_date]; no other column and no other profile changes,
    and the payment history is untouched. *)
Theorem subscription_updated (W : World) (req : webhook_request) (ev : event)
    (st : state) :
  reliable W →
  verified W req ev →
  ev_type ev = "customer.subscription.updated" →
  let sub := ev_object ev in
  let out := ServerJs.webhook W req st in
  ∃ status,
    (o_status sub = JStr "trialing" → status = "trial") ∧
    (o_status sub = JStr "active" → status = "active") ∧
    (o_status sub ≠ JStr "trialing" → o_status sub ≠ JStr "active" →
     status = "past_due") ∧
    out.1 = Ok (res_json 200 [("received", JBool true)]) ∧
    updates_by_subscription (o_id sub)
      [("subscription_status", JStr status);
       ("last_payment_date", JStr (JsDate.toISOString (clock W (st_ticks st))))]
      (profiles (st_db st)) (profiles (st_db out.2)) ∧
    payment_history (st_db out.2) = payment_history (st_db st).
Proof.
  intros Hrel Hv Hty sub out. subst out.
  unfold ServerJs.webhook. rewrite Hv. unfold ServerJs.dispatch.
  rewrite Hty. cbn [String.eqb Ascii.eqb Bool.eqb].
  unfold ServerJs.handleSubscriptionUpdate. run. rewrite Hrel. run. fold sub.
  eexists. split; [|split; [|split; [|split; [reflexivity|split; [|reflexivity]]]]].
  4: apply update_by_subscription; written_keys.
  - intros ->. reflexivity.
  - intros ->. reflexivity.
  - intros H1 H2. destruct (o_status sub) as [| | | |s|]; try reflexivity.
    simpl. destruct (String.eqb s "trialing") eqn:E1;
      [apply String.eqb_eq in E1; congruence|].
    destruct (String.eqb s "active") eqn:E2;
      [apply String.eqb_eq in E2; congruence|]. reflexivity.
Qed.

Lemma subscription_updated_witness :
  let out := ServerJs.webhook (Fixtures.world Fixtures.pg)
               (Fixtures.signed "updated") (Fixtures.boot Fixtures.subscribed) in
  updates_by_subscription (JStr "sub_1")
    [("subscription_status", JStr "past_due");
     ("last_payment_date", JStr (JsDate.toISOString (Fixtures.ticking 0)))]
    (profiles Fixtures.subscribed) (profiles (st_db out.2)).
Proof.
  pose proof (subscription_updated (Fixtures.world Fixtures.pg)
    (Fixtures.signed "updated")
    {| ev_id := "evt_4"; ev_type := "customer.subscription.updated";
       ev_object := Fixtures.sub_1 |}
    (Fixtures.boot Fixtures.subscribed) (λ c d, eq_refl) eq_refl eq_refl) as H.
  cbv zeta in H. destruct H as (status & _ & _ & Hother & _ & Hrows & _).
  rewrite Hother in Hrows by discriminate. exact Hrows.
Defined.

(** X3. A verified invoice.payment_succeeded event. When the invoice carries
    no subscription id (a one-time payment) the handler returns at once:
    the event is acknowledged and nothing at all happens. Otherwise, on a
    datastore that carries out its calls, the profiles holding that
    subscription id get status active and the clock reading as
    [last_payment_date]; no other column and no other profile changes. *)
Theorem invoice_payment_succeeded (W : World) (req : webhook_request)
    (ev : event) (st : state) :
  verified W req ev →
  ev_type ev = "invoice.payment_succeeded" →
  let invoice := ev_object ev in
  let out := ServerJs.webhook W req st in
  (truthy (o_subscription invoice) = false →
   out = (Ok (res_json 200 [("received", JBool true)]), st)) ∧
  (truthy (o_subscription invoice) = true → reliable W →
   out.1 = Ok (res_json 200 [("received", JBool true)]) ∧
   updates_by_subscription (o_subscription invoice)
     [("subscription_status", JStr "active");
      ("last_payment_date", JStr (JsDate.toISOString (clock W (st_ticks st))))]
     (profiles (st_db st)) (profiles (st_db out.2)) ∧
   payment_history (st_db out.2) = payment_history (st_db st)).
Proof.
  intros Hv Hty invoice out. subst out.
  unfold ServerJs.webhook. rewrite Hv. unfold ServerJs.dispatch.
  rewrite Hty. cbn [String.eqb Ascii.eqb Bool.eqb].
  unfold ServerJs.handlePaymentSucceeded. fold invoice. split.
  - intros ->. run. by destruct st.
  - intros -> Hrel. run. rewrite Hrel. run.
    split; [reflexivity|]. split; [|reflexivity].
    apply update_by_subscription; written_keys.
Qed.

Lemma invoice_payment_succeeded_witness :
  let out := ServerJs.webhook (Fixtures.world Fixtures.pg)
               (Fixtures.signed "paid") (Fixtures.boot Fixtures.subscribed) in
  updates_by_subscription (JStr "sub_1")
    [("subscription_status", JStr "active");
     ("last_payment_date", JStr (JsDate.toISOString (Fixtures.ticking 0)))]
    (profiles Fixtures.subscribed) (profiles (st_db out.2)).
Proof.
  pose proof (invoice_payment_succeeded (Fixtures.world Fixtures.pg)
    (Fixtures.signed "paid")
    {| ev_id := "evt_6"; ev_type := "invoice.payment_succeeded";
       ev_object := Fixtures.invoice_1 |}
    (Fixtures.boot Fixtures.subscribed) eq_refl eq_refl) as H.
  cbv zeta in H. destruct H as [_ H].
  destruct (H eq_refl (λ c d, eq_refl)) as (_ & Hrows & _). exact Hrows.
Defined.

(** X4. A verified invoice.payment_failed event, on a datastore that carries
    out its calls: the profiles holding the invoice's subscription id get
    status past_due and keep every other column; no other profile
    changes, the payment history is untouched and the clock is not
    read. *)
Theorem invoice_payment_failed (W : World) (req : webhook_request)
    (ev : event) (st : state) :
  reliable W →
  verified W req ev →
  ev_type ev = "invoice.payment_failed" →
  let out := ServerJs.webhook W req st in
  out.1 = Ok (res_json 200 [("received", JBool true)]) ∧
  updates_by_subscription (o_subscription (ev_object ev))
    [("subscription_status", JStr "past_due")]
    (profiles (st_db st)) (profiles (st_db out.2)) ∧
  payment_history (st_db out.2) = payment_history (st_db st) ∧
  st_ticks out.2 = st_ticks st.
Proof.
  intros Hrel Hv Hty out. subst out.
  unfold ServerJs.webhook. rewrite Hv. unfold ServerJs.dispatch.
  rewrite Hty. cbn [String.eqb Ascii.eqb Bool.eqb].
  unfold ServerJs.handlePaymentFailed. run. rewrite Hrel. run.
  split; [reflexivity|]. split; [|split; reflexivity].
  apply update_by_subscription; written_keys.
Qed.

Lemma invoice_payment_failed_witness :
  let out := ServerJs.webhook (Fixtures.world Fixtures.pg)
               (Fixtures.signed "failed") (Fixtures.boot Fixtures.subscribed) in
  updates_by_subscription (JStr "sub_1")
    [("subscription_status", JStr "past_due")]
    (profiles Fixtures.subscribed) (profiles (st_db out.2)).
Proof.
  pose proof (invoice_payment_failed (Fixtures.world Fixtures.pg)
    (Fixtures.signed "failed")
    {| ev_id := "evt_7"; ev_type := "invoice.payment_failed";
       ev_object := Fixtures.invoice_1 |}
    (Fixtures.boot Fixtures.subscribed) (λ c d, eq_refl) eq_refl eq_refl) as H.
  cbv zeta in H. destruct H as (_ & Hrows & _). exact Hrows.
Defined.

(** ** Completed checkouts that fail half-way *)

(** The Supabase client carries out every profile update. *)
Definition updates_carried_out (W : World) : Prop :=
  ∀ patch col v d,
    supabase W (UpdateProfiles patch col v) d =
      Ok (pg_exec (UpdateProfiles patch col v) d).

(** X5. [handleCheckoutComplete] is not atomic. When the session's currency is
    not a string, or when the payment-history insert throws, the profile
    update has already been carried out: the event is answered with 500,
    the profiles are those the update leaves (with the status the handler
    computed), and no Payment Event Record has been added. *)
Theorem checkout_not_atomic (W : World) (req : webhook_request) (ev : event)
    (st : state) (md : metadata) :
  updates_carried_out W →
  verified W req ev →
  ev_type ev = "checkout.session.completed" →
  let session := ev_object ev in
  o_metadata session = Some md →
  (∀ s, o_currency session ≠ JStr s) ∨
  (∀ row d, ∃ e, supabase W (InsertPayment row) d = Throw e) →
  let out := ServerJs.webhook W req st in
  out.1 = Ok (res_send 500 "Webhook handler failed") ∧
  ∃ patch,
    st_db out.2 = pg_exec (UpdateProfiles patch "id" (md_userId md)) (st_db st) ∧
    patch !! "subscription_status" =
      Some (JStr (if is_str (o_mode session) "subscription"
                       && truthy (o_subscription session)
                  then "trial" else "active")) ∧
    payment_history (st_db out.2) = payment_history (st_db st).
Proof.
  intros Hup Hv Hty session Hmd Hfail out. subst out.
  unfold ServerJs.webhook. rewrite Hv. unfold ServerJs.dispatch.
  rewrite Hty. cbn [String.eqb Ascii.eqb Bool.eqb].
  unfold ServerJs.handleCheckoutComplete. fold session. rewrite Hmd.
  destruct (truthy (o_subscription session)) eqn:Hsub; run;
    rewrite ?andb_true_r, ?andb_false_r; rewrite !Hup; run.
  all: destruct (o_currency session) as [| | | |s|] eqn:Hcur; run.
  all: try (split; [reflexivity|]; eexists;
            split; [reflexivity|]; split;
            [destruct (is_str (o_mode session) "subscription"); json_key
            |reflexivity]).
  all: destruct Hfail as [Hfail|Hfail];
    [exfalso; eapply Hfail; reflexivity|].
  all: match goal with
       | |- context [supabase _ (InsertPayment ?row) ?d] =>
           let e := fresh "e" in let He := fresh "He" in
           destruct (Hfail row d) as [e He]; rewrite He
       end; run.
  all: split; [reflexivity|]; eexists;
       split; [reflexivity|]; split;
            [destruct (is_str (o_mode session) "subscription"); json_key
            |reflexivity].
Qed.

Lemma checkout_not_atomic_witness :
  let out := ServerJs.webhook
               (world_of {| ev_id := "evt_10";
                            ev_type := "checkout.session.completed";
                            ev_object := Fixtures.lifetime_session |}
                  (λ c d, match c with
                          | UpdateProfiles _ _ _ => Ok (pg_exec c d)
                          | InsertPayment _ => Throw {| message := "timeout" |}
                          end))
               (Fixtures.signed "{}") (Fixtures.boot Fixtures.two_users) in
  out.1 = Ok (res_send 500 "Webhook handler failed") ∧
  payment_history (st_db out.2) = [].
Proof.
  pose proof (checkout_not_atomic
    (world_of {| ev_id := "evt_10"; ev_type := "checkout.session.completed";
                 ev_object := Fixtures.lifetime_session |}
       (λ c d, match c with
               | UpdateProfiles _ _ _ => Ok (pg_exec c d)
               | InsertPayment _ => Throw {| message := "timeout" |}
               end))
    (Fixtures.signed "{}")
    {| ev_id := "evt_10"; ev_type := "checkout.session.completed";
       ev_object := Fixtures.lifetime_session |}
    (Fixtures.boot Fixtures.two_users)
    {| md_userId := JStr "u1"; md_plan := JStr "lifetime" |}
    (λ patch col v d, eq_refl) eq_refl eq_refl eq_refl
    (or_intror (λ row d, ex_intro _ {| message := "timeout" |} eq_refl))) as H.
  cbv zeta in H. destruct H as (Hres & patch & _ & _ & Hpay).
  split; [exact Hres | exact Hpay].
Defined.

(** ** Validation in [part_000] *)

(** X6. A checkout request in which plan, userId or email is missing (or
    falsy: null, empty string, 0, false) is answered with 400 "Missing
    plan, userId, or email"; nothing else happens, in particular no call
    to the processor. *)
Theorem missing_fields (W : World) (b : checkout_body) (st : state) :
  truthy (b_plan b) = false ∨ truthy (b_userId b) = false ∨
    truthy (b_email b) = false →
  Part000.create_checkout_session W b st =
    (Ok (res_json 400 [("error", JStr "Missing plan, userId, or email")]), st).
Proof.
  intros Hmiss. unfold Part000.create_checkout_session. run.
  destruct st.
  destruct Hmiss as [->|[->| ->]]; simpl;
    rewrite ?orb_true_r; reflexivity.
Qed.

Lemma missing_fields_witness :
  Part000.create_checkout_session (Fixtures.world Fixtures.pg)
    {| b_plan := JStr "weekly"; b_userId := JStr "u1";
       b_email := JStr ""; b_skipTrial := JUndefined |}
    (Fixtures.boot Fixtures.two_users) =
  (Ok (res_json 400 [("error", JStr "Missing plan, userId, or email")]),
   Fixtures.boot Fixtures.two_users).
Proof.
  apply (missing_fields (Fixtures.world Fixtures.pg)
    {| b_plan := JStr "weekly"; b_userId := JStr "u1";
       b_email := JStr ""; b_skipTrial := JUndefined |}
    (Fixtures.boot Fixtures.two_users)).
  right. right. reflexivity.
Defined.

(** ** The sessions the initiator opens *)

(** The processor calls a request added to the journal. *)
Definition new_sessions (before after : state) : list sessionConfig :=
  drop (length (st_stripe_calls before)) (st_stripe_calls after).

(** ** What a webhook delivery can and cannot do *)

(** Runs every branch of the [server.js] webhook on a datastore that
    carries out its calls. *)
Ltac run_webhook W Hrel :=
  unfold ServerJs.webhook;
  destruct (constructEvent W _ _ _) as [?ev|?e]; run;
  [unfold ServerJs.dispatch;
   repeat match goal with
   | |- context [String.eqb (ev_type ?ev) ?s] =>
       destruct (String.eqb (ev_type ev) s)
   end;
   unfold ServerJs.handleCheckoutComplete, ServerJs.handleSubscriptionUpdate,
     ServerJs.handleSubscriptionDeleted, ServerJs.handlePaymentSucceeded,
     ServerJs.handlePaymentFailed;
   repeat match goal with
   | |- context [o_metadata ?o] => destruct (o_metadata o)
   | |- context [truthy (o_subscription ?o)] =>
       destruct (truthy (o_subscription o))
   end; run; rewrite ?Hrel; run;
   repeat match goal with
   | |- context [o_currency ?o] => destruct (o_currency o)
   end; run; rewrite ?Hrel; run
  |].

(** Runs every branch of the [part_000] webhook likewise. *)
Ltac run_webhook0 W Hrel :=
  unfold Part000.webhook;
  destruct (constructEvent W _ _ _) as [?ev|?e]; run;
  [repeat match goal with
   | |- context [String.eqb (ev_type ?ev) ?s] =>
       destruct (String.eqb (ev_type ev) s)
   | |- context [truthy (js_and ?a ?b)] => destruct (truthy (js_and a b))
   end; run; rewrite ?Hrel; run
  |].

(** Column [col] is the same in every row before and after. *)
Definition column_kept (col : string)
    (before after : list (gmap string jsval)) : Prop :=
  rowwise (λ r r', r' !! col = r !! col) before after.

Lemma column_kept_update (patch : gmap string jsval) (k col : string)
    (v : jsval) (rows : list (gmap string jsval)) :
  patch !! col = None →
  column_kept col rows (apply_patch patch k v <$> rows).
Proof.
  intros Hp. apply rowwise_fmap. intros r. unfold apply_patch.
  destruct (eq_match r k v); [|reflexivity]. by apply patched_lookup_None.
Qed.

(** X7. On a datastore that carries out its calls, a webhook delivery never
    adds or removes a profile and never changes the id of one, and the
    payment history only grows: the rows it held are kept, in order, and
    at most one row is appended ([part_000] appends none). *)
Theorem webhook_keeps_records (W : World) (req : webhook_request)
    (st : state) :
  reliable W →
  (let d := st_db (ServerJs.webhook W req st).2 in
   column_kept "id" (profiles (st_db st)) (profiles d) ∧
   ∃ added, payment_history d = payment_history (st_db st) ++ added ∧
            (length added ≤ 1)%nat) ∧
  (let d := st_db (Part000.webhook W req st).2 in
   column_kept "id" (profiles (st_db st)) (profiles d) ∧
   payment_history d = payment_history (st_db st)).
Proof.
  intros Hrel. split.
  - run_webhook W Hrel.
    all: split;
      [first [ by apply rowwise_refl
             | apply column_kept_update; json_key ]
      |first [ exists []; split; [by rewrite app_nil_r|simpl; lia]
             | eexists [_]; split; [reflexivity|simpl; lia] ]].
  - run_webhook0 W Hrel.
    all: split; [|reflexivity];
      first [ by apply rowwise_refl | apply column_kept_update; json_key ].
Qed.

Lemma webhook_keeps_records_witness :
  column_kept "id" (profiles Fixtures.subscribed)
    (profiles (st_db (ServerJs.webhook (Fixtures.world Fixtures.pg)
       (Fixtures.signed "lifetime") (Fixtures.boot Fixtures.subscribed)).2)).
Proof.
  exact (proj1 (proj1 (webhook_keeps_records (Fixtures.world Fixtures.pg)
    (Fixtures.signed "lifetime") (Fixtures.boot Fixtures.subscribed)
    (λ c d, eq_refl)))).
Defined.

(** ** The answer to a verified event *)

(** The completed checkouts [server.js] cannot reconcile: the session has
    no metadata, or its currency is not a string. *)
Definition malformed_checkout (ev : event) : Prop :=
  ev_type ev = "checkout.session.completed" ∧
  (o_metadata (ev_object ev) = None ∨
   ∀ s, o_currency (ev_object ev) ≠ JStr s).

Lemma dispatch_lifecycle_ok (W : World) (ev : event) (st : state) :
  reliable W →
  ev_type ev ≠ "checkout.session.completed" →
  ∃ st', ServerJs.dispatch W ev st = (Ok (), st').
Proof.
  intros Hrel Hty. apply String.eqb_neq in Hty.
  unfold ServerJs.dispatch. rewrite Hty.
  repeat match goal with
  | |- context [String.eqb (ev_type ev) ?s] =>
      destruct (String.eqb (ev_type ev) s)
  end;
  unfold ServerJs.handleSubscriptionUpdate,
    ServerJs.handleSubscriptionDeleted, ServerJs.handlePaymentSucceeded,
    ServerJs.handlePaymentFailed;
  repeat match goal with
  | |- context [truthy (o_subscription ?o)] =>
      destruct (truthy (o_subscription o))
  end; run; rewrite ?Hrel; run; eexists; reflexivity.
Qed.

(** X8. On a datastore that carries out its calls, [server.js] answers a
    verified event with 500 exactly when it is such a malformed checkout,
    and acknowledges every other verified event with 200. *)
Theorem server_answer (W : World) (req : webhook_request) (ev : event)
    (st : state) :
  reliable W →
  verified W req ev →
  let out := ServerJs.webhook W req st in
  (malformed_checkout ev →
   out.1 = Ok (res_send 500 "Webhook handler failed")) ∧
  (¬ malformed_checkout ev →
   out.1 = Ok (res_json 200 [("received", JBool true)])).
Proof.
  intros Hrel Hv out. subst out. unfold ServerJs.webhook. rewrite Hv.
  unfold malformed_checkout.
  destruct (String.eqb (ev_type ev) "checkout.session.completed") eqn:E1.
  - unfold ServerJs.dispatch. rewrite E1. apply String.eqb_eq in E1.
    unfold ServerJs.handleCheckoutComplete.
    destruct (o_metadata (ev_object ev)) as [md|]; run.
    2: { split; [reflexivity|]. intros Hn. exfalso. apply Hn. auto. }
    destruct (truthy (o_subscription (ev_object ev))); run;
      rewrite !Hrel; run;
      destruct (o_currency (ev_object ev)) as [| | | |s|] eqn:Hcur; run;
      rewrite ?Hrel; run.
    all: split; [intros [_ [Hm|Hc]]; [discriminate Hm|]|intros Hn];
      try reflexivity.
    all: try (exfalso; eapply Hc; reflexivity).
    all: exfalso; apply Hn; split; [assumption|right; intros s; discriminate].
  - apply String.eqb_neq in E1.
    destruct (dispatch_lifecycle_ok W ev st Hrel E1) as [st' Hd].
    run. rewrite Hd. simpl.
    split; [intros [Hty _]; contradiction|reflexivity].
Qed.

Lemma server_answer_witness :
  (ServerJs.webhook (Fixtures.world Fixtures.pg) (Fixtures.signed "bare")
     (Fixtures.boot Fixtures.two_users)).1 =
  Ok (res_send 500 "Webhook handler failed").
Proof.
  refine (proj1 (server_answer (Fixtures.world Fixtures.pg)
    (Fixtures.signed "bare")
    {| ev_id := "evt_3"; ev_type := "checkout.session.completed";
       ev_object := Fixtures.bare_session |}
    (Fixtures.boot Fixtures.two_users) (λ c d, eq_refl) eq_refl) _).
  split; [reflexivity|]. left. reflexivity.
Defined.

(** ** Plans that name an inherited property *)

(** X9. The check [!priceId] of [part_000] looks the plan up in an object
    literal, so a plan that names a property inherited from
    [Object.prototype] ("constructor", "toString", ...) finds a value and
    is not rejected: the request reaches the processor, in subscription
    mode, with a price that is not a string. *)
Theorem inherited_plan_name (W : World) (b : checkout_body) (st : state)
    (key : string) :
  key ∈ Object_prototype_keys →
  b_plan b = JStr key →
  truthy (b_userId b) = true →
  truthy (b_email b) = true →
  ∃ cfg repr,
    new_sessions st (Part000.create_checkout_session W b st).2 = [cfg] ∧
    cfg_price cfg = JObject repr ∧
    cfg_mode cfg = "subscription" ∧
    cfg_subscription_data cfg = None.
Proof.
  intros Hkey Hplan Huser Hemail.
  unfold new_sessions, Part000.create_checkout_session. run.
  rewrite Hplan, Huser, Hemail.
  unfold Object_prototype_keys in Hkey.
  repeat (apply elem_of_cons in Hkey as [->|Hkey];
          [simpl; eexists _, _;
           (split; [destruct (sessions_create W _); run;
                    rewrite drop_app_length; reflexivity|]);
           repeat split|]).
  by apply elem_of_nil in Hkey.
Qed.

Lemma inherited_plan_name_witness :
  ∃ cfg,
    st_stripe_calls (Part000.create_checkout_session (Fixtures.world Fixtures.pg)
      {| b_plan := JStr "toString"; b_userId := JStr "u1";
         b_email := JStr "u1@example.org"; b_skipTrial := JUndefined |}
      (Fixtures.boot Fixtures.two_users)).2 = [cfg] ∧
    cfg_price cfg = JObject "function toString() { [native code] }".
Proof.
  destruct (inherited_plan_name (Fixtures.world Fixtures.pg)
    {| b_plan := JStr "toString"; b_userId := JStr "u1";
       b_email := JStr "u1@example.org"; b_skipTrial := JUndefined |}
    (Fixtures.boot Fixtures.two_users) "toString") as (cfg & repr & Hc & _).
  - unfold Object_prototype_keys.
    do 8 apply list_elem_of_further. apply list_elem_of_here.
  - reflexivity.
  - reflexivity.
  - reflexivity.
  - exists cfg. split; [exact Hc|].
    injection Hc as <-. reflexivity.
Defined.

(** ** Billing-portal sessions *)

Ltac run_portal :=
  unfold Portal.p_try_catch, Portal.billingPortal_create, Portal.lift,
    mbind, mret, Portal.PM_bind, Portal.PM_ret, console in *; simpl in *.

(** X10. [part_000] rejects a portal request without a customerId (missing,
    null or empty) with 400 "Missing customerId" and does nothing else:
    no call to the processor, no log line. *)
Theorem portal_missing_customer (W : World)
    (create : Portal.portal_params → result jsval) (b : Portal.portal_body)
    (ps : Portal.pstate) :
  truthy (Portal.b_customerId b) = false →
  Portal.Part000_create_portal_session W create b ps =
    (Ok (res_json 400 [("error", JStr "Missing customerId")]), ps).
Proof.
  intros Hc. unfold Portal.Part000_create_portal_session. run_portal.
  rewrite Hc. simpl. by destruct ps.
Qed.

Lemma portal_missing_customer_witness :
  Portal.Part000_create_portal_session (Fixtures.world Fixtures.pg)
    (λ _, Ok (JStr "https://billing.example/session"))
    {| Portal.b_customerId := JNull |}
    {| Portal.p_state := Fixtures.boot Fixtures.two_users;
       Portal.p_portal_calls := [] |} =
  (Ok (res_json 400 [("error", JStr "Missing customerId")]),
   {| Portal.p_state := Fixtures.boot Fixtures.two_users;
      Portal.p_portal_calls := [] |}).
Proof.
  apply (portal_missing_customer (Fixtures.world Fixtures.pg)
    (λ _, Ok (JStr "https://billing.example/session"))
    {| Portal.b_customerId := JNull |}
    {| Portal.p_state := Fixtures.boot Fixtures.two_users;
       Portal.p_portal_calls := [] |}).
  reflexivity.
Defined.

(** X11. Opening a billing-portal session. [server.js] always calls the
    processor, once, for the customer of the request and with the return
    URL [CLIENT_URL/account]; it answers 200 with the session URL, or 400
    with the processor's message, and has no other effect. [part_000]
    does the same for a request that has a customerId, with the return URL
    [CLIENT_URL/profile.html], except that a processor failure is logged
    and answered with 500. Neither touches the datastore. *)
Theorem portal_session_opened (W : World)
    (create : Portal.portal_params → result jsval) (b : Portal.portal_body)
    (ps : Portal.pstate) :
  (let p := {| Portal.pp_customer := Portal.b_customerId b;
               Portal.pp_return_url := client_url W +:+ "/account" |} in
   let out := Portal.ServerJs_create_portal_session W create b ps in
   Portal.p_portal_calls out.2 = Portal.p_portal_calls ps ++ [p] ∧
   Portal.p_state out.2 = Portal.p_state ps ∧
   (∀ url, create p = Ok url → out.1 = Ok (res_json 200 [("url", url)])) ∧
   (∀ e, create p = Throw e →
      out.1 = Ok (res_json 400 [("error", JStr (message e))]))) ∧
  (truthy (Portal.b_customerId b) = true →
   let p := {| Portal.pp_customer := Portal.b_customerId b;
               Portal.pp_return_url := client_url W +:+ "/profile.html" |} in
   let out := Portal.Part000_create_portal_session W create b ps in
   Portal.p_portal_calls out.2 = Portal.p_portal_calls ps ++ [p] ∧
   st_db (Portal.p_state out.2) = st_db (Portal.p_state ps) ∧
   st_db_calls (Portal.p_state out.2) = st_db_calls (Portal.p_state ps) ∧
   (∀ url, create p = Ok url →
      out.1 = Ok (res_json 200 [("url", url)]) ∧
      Portal.p_state out.2 = Portal.p_state ps) ∧
   (∀ e, create p = Throw e →
      out.1 = Ok (res_json 500 [("error", JStr (message e))]) ∧
      st_console (Portal.p_state out.2) =
        st_console (Portal.p_state ps) ++ ["Portal error: " +:+ message e])).
Proof.
  split.
  - unfold Portal.ServerJs_create_portal_session. run_portal.
    destruct (create _) eqn:Hc; simpl;
      (split; [reflexivity|]); (split; [reflexivity|]);
      split; intros x Hx; by simplify_eq.
  - intros Hcust. unfold Portal.Part000_create_portal_session. run_portal.
    rewrite Hcust. simpl.
    destruct (create _) eqn:Hc; simpl;
      (split; [reflexivity|]); (split; [reflexivity|]);
      (split; [reflexivity|]);
      split; intros x Hx; simplify_eq; by split.
Qed.

(** ** One-time purchases and the stored subscription id *)

(** X12. A verified completed checkout without a subscription id (a one-time
    purchase), on a datastore that carries out its calls. [server.js]
    leaves the [stripe_subscription_id] and the [trial_end_date] of the
    buyer's profile as they were, so a subscription stored by an earlier
    checkout stays attached to the record; [part_000] overwrites the
    stored subscription id with null. *)
Theorem one_time_checkout_subscription_id (W : World) (req : webhook_request)
    (ev : event) (st : state) :
  reliable W →
  verified W req ev →
  ev_type ev = "checkout.session.completed" →
  let session := ev_object ev in
  truthy (o_subscription session) = false →
  (column_kept "stripe_subscription_id" (profiles (st_db st))
     (profiles (st_db (ServerJs.webhook W req st).2)) ∧
   column_kept "trial_end_date" (profiles (st_db st))
     (profiles (st_db (ServerJs.webhook W req st).2))) ∧
  (truthy (o_client_reference_id session) = true →
   rowwise (λ r r',
       if eq_match r "id" (o_client_reference_id session)
       then r' !! "stripe_subscription_id" = Some JNull
       else r' = r)
     (profiles (st_db st)) (profiles (st_db (Part000.webhook W req st).2))).
Proof.
  intros Hrel Hv Hty session Hsub. split.
  - unfold ServerJs.webhook. rewrite Hv. unfold ServerJs.dispatch.
    rewrite Hty. cbn [String.eqb Ascii.eqb Bool.eqb].
    unfold ServerJs.handleCheckoutComplete. fold session. rewrite Hsub.
    destruct (o_metadata session) as [md|]; run;
      [|split; by apply rowwise_refl].
    rewrite !Hrel. run.
    destruct (o_currency session); run; rewrite ?Hrel; run;
      split; apply column_kept_update; json_key.
  - intros Hu. unfold Part000.webhook. rewrite Hv, Hty.
    cbn [String.eqb Ascii.eqb Bool.eqb]. fold session.
    unfold js_and. rewrite Hu.
    assert (truthy (js_or (match o_metadata session with
                           | Some md => md_plan md
                           | None => JUndefined
                           end)
                      (if truthy (o_subscription session)
                       then JStr "weekly" else JStr "lifetime")) = true) as ->.
    { unfold js_or. rewrite Hsub.
      by destruct (truthy (match o_metadata session with
                           | Some md => md_plan md
                           | None => JUndefined
                           end)) eqn:E. }
    run. rewrite Hrel. run.
    apply rowwise_fmap. intros r. unfold apply_patch.
    destruct (eq_match r "id" (o_client_reference_id session)); [|reflexivity].
    apply patched_lookup_Some. unfold js_or. rewrite Hsub. json_key.
Qed.

Lemma one_time_checkout_subscription_id_witness :
  column_kept "stripe_subscription_id" (profiles Fixtures.subscribed)
    (profiles (st_db (ServerJs.webhook (Fixtures.world Fixtures.pg)
       (Fixtures.signed "lifetime") (Fixtures.boot Fixtures.subscribed)).2)).
Proof.
  exact (proj1 (proj1 (one_time_checkout_subscription_id
    (Fixtures.world Fixtures.pg) (Fixtures.signed "lifetime")
    {| ev_id := "evt_1"; ev_type := "checkout.session.completed";
       ev_object := Fixtures.lifetime_session |}
    (Fixtures.boot Fixtures.subscribed) (λ c d, eq_refl) eq_refl eq_refl
    eq_refl))).
Defined.

(** ** Redelivery to [part_000] *)

(** X13. The reconciler of [part_000] writes no timestamp and inserts no row:
    on a datastore that carries out its calls, delivering the same request
    twice leaves the datastore exactly as one delivery does. *)
Theorem part000_redelivery_idempotent (W : World) (req : webhook_request)
    (st : state) :
  reliable W →
  let once := (Part000.webhook W req st).2 in
  let twice := (Part000.webhook W req once).2 in
  st_db twice = st_db once.
Proof.
  intros Hrel once twice. subst twice once. unfold Part000.webhook.
  destruct (constructEvent W _ _ _) as [ev|e]; run; [|reflexivity].
  destruct (String.eqb (ev_type ev) _); run; [|reflexivity].
  destruct (truthy (js_and _ _)); run; [|reflexivity].
  rewrite !Hrel. run. f_equal.
  rewrite <- list_fmap_compose. apply list_fmap_ext. intros i r _.
  apply apply_patch_idemp. json_key.
Qed.

Lemma part000_redelivery_idempotent_witness :
  let once := (Part000.webhook (Fixtures.world Fixtures.pg)
                 (Fixtures.signed "weekly")
                 (Fixtures.boot Fixtures.two_users)).2 in
  let twice := (Part000.webhook (Fixtures.world Fixtures.pg)
                  (Fixtures.signed "weekly") once).2 in
  st_db twice = st_db once.
Proof.
  exact (part000_redelivery_idempotent (Fixtures.world Fixtures.pg)
    (Fixtures.signed "weekly") (Fixtures.boot Fixtures.two_users)
    (λ c d, eq_refl)).
Defined.

(** ** The last delivery decides *)

(** The subscription id a lifecycle event locates profiles by. *)
Definition located_by (ev : event) : jsval :=
  if String.eqb (ev_type ev) "customer.subscription.updated"
     || String.eqb (ev_type ev) "customer.subscription.deleted"
  then o_id (ev_object ev)
  else o_subscription (ev_object ev).

Lemma last_patch_decides (p1 p2 p2' r : gmap string jsval)
    (col k : string) (v1 v2 x : jsval) :
  p1 !! col = None →
  p2 !! k = Some x →
  p2' !! k = Some x →
  eq_match r col v2 = true →
  apply_patch p2 col v2 (apply_patch p1 col v1 r) !! k =
    apply_patch p2' col v2 r !! k.
Proof.
  intros Hcol H2 H2' Hm.
  assert (eq_match (apply_patch p1 col v1 r) col v2 = true) as Hm'.
  { unfold apply_patch. destruct (eq_match r col v1); [|done].
    by rewrite eq_match_patched. }
  rewrite (apply_patch_match p2 _ _ _ Hm'), (apply_patch_match p2' _ _ _ Hm).
  by rewrite (patched_lookup_Some _ _ _ _ H2), (patched_lookup_Some _ _ _ _ H2').
Qed.

(** X14. [server.js] has no ordering guard: on a datastore that carries out
    its calls, when two lifecycle events (subscription updated or deleted,
    invoice payment succeeded or failed) are delivered one after the
    other, every profile the second one locates ends with the status the
    second one alone would give it, whatever the first one was. *)
Theorem last_delivery_decides (W : World) (req1 req2 : webhook_request)
    (ev1 ev2 : event) (st : state) :
  reliable W →
  verified W req1 ev1 →
  verified W req2 ev2 →
  lifecycle_event (ev_type ev1) →
  lifecycle_event (ev_type ev2) →
  truthy (located_by ev2) = true →
  let both := (ServerJs.webhook W req2 (ServerJs.webhook W req1 st).2).2 in
  let alone := (ServerJs.webhook W req2 st).2 in
  ∀ i r,
    profiles (st_db st) !! i = Some r →
    eq_match r "stripe_subscription_id" (located_by ev2) = true →
    cell (st_db both) i "subscription_status" =
      cell (st_db alone) i "subscription_status".
Proof.
  intros Hrel Hv1 Hv2 Hl1 Hl2 Hloc both alone i r Hi Hm.
  subst both alone. unfold cell, located_by in *.
  unfold ServerJs.webhook. rewrite Hv1, Hv2. unfold ServerJs.dispatch.
  destruct Hl1 as [H1|[H1|[H1|H1]]]; rewrite H1;
    destruct Hl2 as [H2|[H2|[H2|H2]]]; rewrite H2 in *;
    cbn [String.eqb Ascii.eqb Bool.eqb orb] in *;
    unfold ServerJs.handleSubscriptionUpdate,
      ServerJs.handleSubscriptionDeleted, ServerJs.handlePaymentSucceeded,
      ServerJs.handlePaymentFailed;
    rewrite ?Hloc;
    try destruct (truthy (o_subscription (ev_object ev1)));
    run; rewrite ?Hrel; run;
    rewrite ?list_lookup_fmap, Hi; simpl; try reflexivity.
  all: first
    [ eapply last_patch_decides; [json_key|json_key|json_key|exact Hm]
    | rewrite !apply_patch_match by exact Hm;
      erewrite !patched_lookup_Some by json_key; reflexivity ].
Qed.

Lemma last_delivery_decides_witness :
  let W := Fixtures.world Fixtures.pg in
  let both := (ServerJs.webhook W (Fixtures.signed "updated")
                 (ServerJs.webhook W (Fixtures.signed "deleted")
                    (Fixtures.boot Fixtures.subscribed)).2).2 in
  let alone := (ServerJs.webhook W (Fixtures.signed "updated")
                  (Fixtures.boot Fixtures.subscribed)).2 in
  cell (st_db both) 0 "subscription_status" =
    cell (st_db alone) 0 "subscription_status".
Proof.
  exact (last_delivery_decides (Fixtures.world Fixtures.pg)
    (Fixtures.signed "deleted") (Fixtures.signed "updated")
    {| ev_id := "evt_5"; ev_type := "customer.subscription.deleted";
       ev_object := Fixtures.sub_1 |}
    {| ev_id := "evt_4"; ev_type := "customer.subscription.updated";
       ev_object := Fixtures.sub_1 |}
    (Fixtures.boot Fixtures.subscribed) (λ c d, eq_refl) eq_refl eq_refl
    (or_intror (or_introl eq_refl)) (or_introl eq_refl) eq_refl
    0%nat (Fixtures.row (JStr "u1") (JStr "weekly") (JStr "trial") (JStr "sub_1"))
    eq_refl eq_refl).
Defined.
